(** * Racing agent: the request orchestrator of [mobile_agent.py]

    The script collects the race form (meeting, date, time, bet mode) and an
    API key, sends one prompt to a hosted model, decodes the answer with
    [json.loads] and renders it with Streamlit calls.  This development embeds
    the sidebar's key resolution and the "AGENT LOGIC" part of the script
    (the [if]/[elif] on the submit button, the client set-up, the
    [try]/[except] around the remote call, the decoding and the rendering) as
    a computation in a small output-and-exception monad.  What the script
    calls but does not define (the generation client, [json.loads], the type
    check of [st.metric], the exception of a text that cannot be encoded, the
    [repr] of floats and strings) is a record of functions, [World]; every
    theorem holds for every such record.

    The page furniture that precedes the agent logic on every run (page
    configuration, style sheet, headers and the input widgets themselves) is
    not part of the recorded output; the values the widgets return are the
    [Inputs] of the model. *)

From Stdlib Require Import String Ascii List ZArith Bool Lia.
From Stdlib Require Import Floats DecimalString.
Import ListNotations.
Local Open Scope string_scope.

(** ** Python values *)

Module Py.

(** The values [json.loads] can return (and the ones a secrets file can hold):
    [None], booleans, integers, floats, strings, lists, and dicts with string
    keys.  A dict is kept as its items in insertion order. *)
#[warnings="-register-all"]
Inductive pyval : Type :=
| PNone
| PBool (b : bool)
| PInt (z : Z)
| PFloat (f : float)
| PStr (s : string)
| PList (l : list pyval)
| PDict (d : list (string * pyval)).

(** Exceptions (instances of Python's [Exception]).  [KeyError] and
    [AttributeError] are the two the script's own subscripts and attribute
    accesses raise; [Raised] stands for whatever a library raises, with its
    class name and its message. *)
Inductive exn : Type :=
| KeyError (key : string)
| AttributeError (type_name attr : string)
| Raised (class message : string).

Definition quote (s : string) : string := "'" ++ s ++ "'".

(** [str(e)], as the f-string of the handler formats it.  [str] of a
    [KeyError] is the [repr] of the key; the keys the script uses are plain
    identifiers, whose [repr] is the key between single quotes. *)
Definition exn_str (e : exn) : string :=
  match e with
  | KeyError k => quote k
  | AttributeError t a => "'" ++ t ++ "' object has no attribute '" ++ a ++ "'"
  | Raised _ m => m
  end.

(** [type(v).__name__] *)
Definition type_name (v : pyval) : string :=
  match v with
  | PNone => "NoneType"
  | PBool _ => "bool"
  | PInt _ => "int"
  | PFloat _ => "float"
  | PStr _ => "str"
  | PList _ => "list"
  | PDict _ => "dict"
  end.

Definition str_nonempty (s : string) : bool :=
  match s with
  | EmptyString => false
  | String _ _ => true
  end.

(** [bool(v)]: the truth value an [if] or an [and] tests. *)
Definition truthy (v : pyval) : bool :=
  match v with
  | PNone => false
  | PBool b => b
  | PInt z => negb (z =? 0)%Z
  | PFloat f => negb (PrimFloat.eqb f PrimFloat.zero)
  | PStr s => str_nonempty s
  | PList l => match l with [] => false | _ :: _ => true end
  | PDict d => match d with [] => false | _ :: _ => true end
  end.

(** Lookup in the items of a dict: the first entry with that key. *)
Fixpoint lookup (k : string) (d : list (string * pyval)) : option pyval :=
  match d with
  | [] => None
  | (k', v) :: d' => if String.eqb k k' then Some v else lookup k d'
  end.

(** [data.get(k)]: the value or [None] on a dict; no other JSON value has a
    [get] attribute. *)
Definition py_get (data : pyval) (k : string) : exn + pyval :=
  match data with
  | PDict d => inr (match lookup k d with Some v => v | None => PNone end)
  | _ => inl (AttributeError (type_name data) "get")
  end.

(** [data[k]] for a string key [k] on a dict: the value, or [KeyError]. *)
Definition dict_getitem (d : list (string * pyval)) (k : string) : exn + pyval :=
  match lookup k d with
  | Some v => inr v
  | None => inl (KeyError k)
  end.

(** [v != s] for a string literal [s]: only an equal string is not different. *)
Definition ne_str (v : pyval) (s : string) : bool :=
  match v with
  | PStr s' => negb (String.eqb s' s)
  | _ => true
  end.

Definition str_of_Z (z : Z) : string := NilZero.string_of_int (Z.to_int z).

Fixpoint join (sep : string) (l : list string) : string :=
  match l with
  | [] => EmptyString
  | [s] => s
  | s :: l' => s ++ sep ++ join sep l'
  end.

Section Repr.
(** [repr] of a float and of a string are the interpreter's business. *)
Variable float_repr : float -> string.
Variable str_repr : string -> string.

(** [repr(v)] *)
Fixpoint py_repr (v : pyval) : string :=
  match v with
  | PNone => "None"
  | PBool true => "True"
  | PBool false => "False"
  | PInt z => str_of_Z z
  | PFloat f => float_repr f
  | PStr s => str_repr s
  | PList l => "[" ++ join ", " (map py_repr l) ++ "]"
  | PDict d =>
      "{" ++ join ", " (map (fun kv : string * pyval =>
                               match kv with
                               | (k, x) => str_repr k ++ ": " ++ py_repr x
                               end) d) ++ "}"
  end.

(** [str(v)], what an f-string field produces: the string itself for a
    string, the [repr] for everything else. *)
Definition py_str (v : pyval) : string :=
  match v with
  | PStr s => s
  | _ => py_repr v
  end.
End Repr.

End Py.
Import Py.

(** ** Dates, times and the bet mode, as the f-strings print them *)

Module Form.

Definition str_of_nat (n : nat) : string := NilZero.string_of_uint (Nat.to_uint n).

Fixpoint zeros (n : nat) : string :=
  match n with
  | O => EmptyString
  | S n' => "0" ++ zeros n'
  end.

(** [%0wd] for a natural number *)
Definition zfill (w n : nat) : string :=
  let s := str_of_nat n in zeros (w - String.length s) ++ s.

(** [datetime.time], as [st.time_input] returns it (no time zone) *)
Record time := { hour : nat; minute : nat; second : nat; microsecond : nat }.

(** [datetime.date] *)
Record date := { year : nat; month : nat; day : nat }.

(** [str(t)] is [t.isoformat()]: the microseconds are printed only when they
    are not zero. *)
Definition time_str (t : time) : string :=
  zfill 2 (hour t) ++ ":" ++ zfill 2 (minute t) ++ ":" ++ zfill 2 (second t)
  ++ match microsecond t with
     | O => EmptyString
     | S _ => "." ++ zfill 6 (microsecond t)
     end.

(** [str(d)] is [d.isoformat()] *)
Definition date_str (d : date) : string :=
  zfill 4 (year d) ++ "-" ++ zfill 2 (month d) ++ "-" ++ zfill 2 (day d).

(** The two options of the "Mode" radio *)
Inductive BetType := Win | EachWay.

Definition bet_str (b : BetType) : string :=
  match b with
  | Win => "Win"
  | EachWay => "Each-Way"
  end.

End Form.
Import Form.

(** ** Output and exceptions *)

Module Script.

(** The arguments of [genai.GenerativeModel(...)] *)
Record ModelArgs := {
  model_name : string;
  tools : list string;
  response_mime_type : string;
  system_instruction : string
}.

(** The object [generate_content] returns; reading [response.text] can raise. *)
Record Response := { text : exn + string }.

(** What a run does, in order: the calls to the generation client and the
    Streamlit elements it writes. *)
Inductive event : Type :=
| genai_configure (api_key : pyval)
| st_status (label : string) (expanded : bool)
| genai_GenerativeModel (m : ModelArgs)
| status_write (body : string)
| generate_content (m : ModelArgs) (prompt : string)
| status_update (label state : string) (expanded : option bool)
| st_error (body : string)
| st_caption (body : string)
| st_columns (n : nat)
| st_metric (label : string) (value delta : pyval) (delta_color : option string)
| st_divider
| st_subheader (body : string)
| st_info (body : pyval)
| st_warning (body : string).

(** A computation writes events and then returns a value or raises. *)
Definition M (A : Type) : Type := (list event * (exn + A))%type.

Definition ret {A} (a : A) : M A := ([], inr a).
Definition lift {A} (r : exn + A) : M A := ([], r).
Definition emit (ev : event) : M unit := ([ev], inr tt).

Definition bind {A B} (m : M A) (f : A -> M B) : M B :=
  match snd m with
  | inl e => (fst m, inl e)
  | inr a => let r := f a in (fst m ++ fst r, snd r)%list
  end.

(** [try: body except Exception as e: handler e] *)
Definition try_except {A} (body : M A) (handler : exn -> M A) : M A :=
  match snd body with
  | inl e => let r := handler e in (fst body ++ fst r, snd r)%list
  | inr a => body
  end.

Declare Scope py_scope.
Delimit Scope py_scope with py.
Notation "x <- c1 ;; c2" := (bind c1 (fun x => c2))
  (at level 100, c1 at next level, right associativity) : py_scope.
Notation "c1 ;; c2" := (bind c1 (fun _ => c2))
  (at level 100, right associativity) : py_scope.
Local Open Scope py_scope.

(** Strings are byte strings, the UTF-8 encoding of the text.  A Python
    string can also hold a surrogate code point, which UTF-8 cannot encode:
    [json.loads] returns one for an escape such as [\ud800] that has no
    partner.  Such a code point is kept as the three bytes the encoding
    scheme would give it, [ED] followed by a byte from [A0] to [BF] and one
    more; in encoded text [ED] is followed by a byte below [A0].  So a text
    holds a surrogate exactly when [ED] is followed by [A0] or more. *)
Fixpoint has_surrogate (s : string) : bool :=
  match s with
  | String a ((String b _) as s') =>
      ((N_of_ascii a =? 237)%N && (160 <=? N_of_ascii b)%N) || has_surrogate s'
  | _ => false
  end.

(** A call to a collaborator that may raise instead of returning: the call is
    recorded either way. *)
Definition call {A} (ev : event) (r : exn + A) : M A := emit ev ;; lift r.

(** ** The collaborators *)

(** What the script calls and does not define.  [None] from a check means
    that the call returns. *)
Record World := {
  w_float_repr : float -> string;
  w_str_repr : string -> string;
  w_configure : pyval -> option exn;
  w_GenerativeModel : ModelArgs -> option exn;
  (* the client answers under the key that [genai.configure] was given *)
  w_generate_content : pyval -> ModelArgs -> string -> exn + Response;
  w_json_loads : string -> exn + pyval;
  w_metric_check : pyval -> pyval -> option exn;
  (* what a Streamlit element raises for a text that cannot be encoded *)
  w_encode_error : string -> exn
}.

Definition returns_or_raises (c : option exn) : exn + unit :=
  match c with
  | Some e => inl e
  | None => inr tt
  end.

(** ** The inputs of a run *)

Record Inputs := {
  secrets : list (string * pyval);   (* st.secrets *)
  key_field : string;                (* the "Google API Key" text input *)
  race_time : time;
  meeting : string;
  race_date : date;
  bet_type : BetType;
  start_btn : bool                   (* the "Analyze Race" button *)
}.

(** Sidebar: the key of the secrets if there is one, else the text input. *)
Definition api_key (inp : Inputs) : pyval :=
  match lookup "GOOGLE_API_KEY" (secrets inp) with
  | Some v => v
  | None => PStr (key_field inp)
  end.

(** ** The prompts *)

Definition nl : string := String (ascii_of_nat 10) EmptyString.
Definition dq : string := String (ascii_of_nat 34) EmptyString.
Definition indent : string := "            ".

Definition key_line (key example : string) : string :=
  indent ++ "   - " ++ dq ++ key ++ dq ++ ": " ++ dq ++ example ++ dq ++ nl.

Definition system_prompt (inp : Inputs) : string :=
  nl
  ++ indent ++ "You are a Racing Analyst. You MUST output strictly compliant JSON." ++ nl
  ++ indent ++ nl
  ++ indent ++ "YOUR GOAL:" ++ nl
  ++ indent ++ "1. Search for the racecard: " ++ meeting inp ++ " "
            ++ time_str (race_time inp) ++ " on " ++ date_str (race_date inp) ++ "." ++ nl
  ++ indent ++ "2. Analyze based on Going, Class, and Jockey." ++ nl
  ++ indent ++ "3. Return JSON with these exact keys:" ++ nl
  ++ key_line "conditions" "e.g. Soft, 2m 4f"
  ++ key_line "selection" "Name of horse"
  ++ key_line "selection_odds" "e.g. 4/1"
  ++ key_line "danger" "Name of danger horse"
  ++ key_line "danger_odds" "e.g. 7/2"
  ++ key_line "jockey_alert" "Any top jockey booking or null"
  ++ key_line "logic" "Concise reasoning for the selection."
  ++ indent.

Definition model_args (inp : Inputs) : ModelArgs :=
  {| model_name := "gemini-1.5-flash-001";
     tools := ["google_search_retrieval"];
     response_mime_type := "application/json";
     system_instruction := system_prompt inp |}.

Definition user_prompt (inp : Inputs) : string :=
  "Analyze the " ++ time_str (race_time inp) ++ " race at " ++ meeting inp
  ++ " (" ++ date_str (race_date inp) ++ ") for a " ++ bet_str (bet_type inp) ++ " bet.".

(** ** The agent logic *)

Section Run.
Variable w : World.

Definition str (v : pyval) : string := py_str (w_float_repr w) (w_str_repr w) v.

(** The [TypeError] of [data[k]] for a string [k] on a value that is not a
    dict (the wording for a string is the one of Python 3.11 and later). *)
Definition subscript_error (data : pyval) : exn :=
  Raised "TypeError"
    match data with
    | PList _ => "list indices must be integers or slices, not str"
    | PStr _ => "string indices must be integers, not 'str'"
    | _ => "'" ++ type_name data ++ "' object is not subscriptable"
    end.

(** [data[k]].  The script subscripts [data] only after [data.get] has
    returned, that is on dicts (lemma [subscript_after_get]). *)
Definition py_getitem (data : pyval) (k : string) : exn + pyval :=
  match data with
  | PDict d => dict_getitem d k
  | _ => inl (subscript_error data)
  end.

(** A Streamlit element that shows [text], a text made from the response.
    The element is written unless the text cannot be encoded (it holds a
    surrogate): then the call raises and nothing is written. *)
Definition element (ev : event) (text : string) : M unit :=
  if has_surrogate text then lift (inl (w_encode_error w text)) else emit ev.

Definition alert_text (v : pyval) : string := "🚨 **JOCKEY ALERT:** " ++ str v.

Definition caption_text (inp : Inputs) (conditions : pyval) : string :=
  "📍 " ++ meeting inp ++ " • " ++ str conditions.

(** 1. Jockey alert banner:
    [if data.get("jockey_alert") and data["jockey_alert"] != "null": st.error(...)] *)
Definition alert_banner (data : pyval) : M unit :=
  a <- lift (py_get data "jockey_alert") ;;
  if truthy a then
    b <- lift (py_getitem data "jockey_alert") ;;
    if ne_str b "null" then
      c <- lift (py_getitem data "jockey_alert") ;;
      element (st_error (alert_text c)) (alert_text c)
    else ret tt
  else ret tt.

(** [st.metric(label=..., value=..., delta=...)]: the element is written
    unless Streamlit refuses the types of [value] and [delta]. *)
Definition metric (label : string) (value delta : pyval) (delta_color : option string)
  : M unit :=
  lift (returns_or_raises (w_metric_check w value delta)) ;;
  emit (st_metric label value delta delta_color).

(** The success display, from the banner to the logic panel. *)
Definition display (inp : Inputs) (data : pyval) : M unit :=
  alert_banner data ;;
  conditions <- lift (py_getitem data "conditions") ;;
  element (st_caption (caption_text inp conditions)) (caption_text inp conditions) ;;
  emit (st_columns 2) ;;
  selection <- lift (py_getitem data "selection") ;;
  selection_odds <- lift (py_getitem data "selection_odds") ;;
  metric "🏆 THE SELECTION" selection selection_odds None ;;
  danger <- lift (py_getitem data "danger") ;;
  danger_odds <- lift (py_getitem data "danger_odds") ;;
  metric "⚠️ THE DANGER" danger danger_odds (Some "inverse") ;;
  emit st_divider ;;
  emit (st_subheader "📝 The Logic") ;;
  logic <- lift (py_getitem data "logic") ;;
  element (st_info logic) (str logic).

(** The body of the [try]. *)
Definition attempt (inp : Inputs) : M unit :=
  response <- call (generate_content (model_args inp) (user_prompt inp))
                   (w_generate_content w (api_key inp) (model_args inp)
                      (user_prompt inp)) ;;
  txt <- lift (text response) ;;
  data <- lift (w_json_loads w txt) ;;
  emit (status_update "Analysis Complete" "complete" (Some false)) ;;
  display inp data.

(** The [except Exception as e] clause.  The text of its message is made
    from the [str] of an exception, not from the response. *)
Definition handler (e : exn) : M unit :=
  emit (status_update "Error" "error" None) ;;
  emit (st_error ("Oops: " ++ exn_str e)).

(** [if start_btn and api_key and meeting: ... elif start_btn and not api_key: ...] *)
Definition agent_logic (inp : Inputs) : M unit :=
  if start_btn inp && truthy (api_key inp) && str_nonempty (meeting inp) then
    call (genai_configure (api_key inp)) (returns_or_raises (w_configure w (api_key inp))) ;;
    emit (st_status "🚀 Agent Working..." true) ;;
    call (genai_GenerativeModel (model_args inp))
         (returns_or_raises (w_GenerativeModel w (model_args inp))) ;;
    emit (status_write "🔍 Finding racecard & checking going...") ;;
    try_except (attempt inp) handler
  else if start_btn inp && negb (truthy (api_key inp)) then
    emit (st_warning "Please enter your API Key.")
  else
    ret tt.

End Run.

End Script.
Import Script.

(** ** Reading a page *)

Module Page.

(** [s.startswith(p)] *)
Fixpoint begins (p s : string) : bool :=
  match p with
  | EmptyString => true
  | String a p' =>
      match s with
      | String b s' => Ascii.eqb a b && begins p' s'
      | EmptyString => false
      end
  end.

(** The error report of the handler. *)
Definition is_oops (ev : event) : bool :=
  match ev with
  | st_error body => begins "Oops: " body
  | _ => false
  end.

(** The jockey alert banner. *)
Definition is_banner (ev : event) : bool :=
  match ev with
  | st_error body => begins "🚨 **JOCKEY ALERT:** " body
  | _ => false
  end.

(** The logic panel's text. *)
Definition is_info (ev : event) : bool :=
  match ev with
  | st_info _ => true
  | _ => false
  end.

(** The elements of the success display: alert banner, conditions caption,
    the two cards in their columns, and the logic panel under its rule and
    heading. *)
Definition is_success_output (ev : event) : bool :=
  match ev with
  | st_error _ => is_banner ev
  | st_caption _ | st_columns _ | st_metric _ _ _ _
  | st_divider | st_subheader _ | st_info _ => true
  | _ => false
  end.

(** The calls into the generation client. *)
Definition is_client_call (ev : event) : bool :=
  match ev with
  | genai_configure _ | genai_GenerativeModel _ | generate_content _ _ => true
  | _ => false
  end.

(** The request to the remote model. *)
Definition is_generation (ev : event) : bool :=
  match ev with
  | generate_content _ _ => true
  | _ => false
  end.

Definition count (p : event -> bool) (t : list event) : nat := length (filter p t).

End Page.
Import Page.

(** The keys the display subscripts, in the order it reads them. *)
Definition required_keys : list string :=
  ["conditions"; "selection"; "selection_odds"; "danger"; "danger_odds"; "logic"].

(** [k in data] for a decoded value that is used as a dict. *)
Definition has_key (data : pyval) (k : string) : bool :=
  match data with
  | PDict d => match lookup k d with Some _ => true | None => false end
  | _ => false
  end.

(** What is on the page when the [try] is entered. *)
Definition setup_events (inp : Inputs) : list event :=
  [ genai_configure (api_key inp);
    st_status "🚀 Agent Working..." true;
    genai_GenerativeModel (model_args inp);
    status_write "🔍 Finding racecard & checking going..." ].

(** What the handler writes for [e]. *)
Definition error_report (e : exn) : list event :=
  [ status_update "Error" "error" None; st_error ("Oops: " ++ exn_str e) ].


(** ** Runs

    A submission: the button was pressed with a key and a meeting in the
    form. *)
Definition submitted (inp : Inputs) : Prop :=
  start_btn inp = true /\ truthy (api_key inp) = true /\ meeting inp <> EmptyString.

(** The two client calls before the [try] return. *)
Definition client_ready (w : World) (inp : Inputs) : Prop :=
  w_configure w (api_key inp) = None /\ w_GenerativeModel w (model_args inp) = None.

(** The model answers the request, and the answer has the text [txt]. *)
Definition replied (w : World) (inp : Inputs) (txt : string) : Prop :=
  exists r, w_generate_content w (api_key inp) (model_args inp) (user_prompt inp) = inr r
            /\ text r = inr txt.

(** The answer's text is JSON for the value [data]. *)
Definition decoded (w : World) (inp : Inputs) (data : pyval) : Prop :=
  exists txt, replied w inp txt /\ w_json_loads w txt = inr data.

(** The request and the status line of a decoded answer. *)
Definition answered_events (inp : Inputs) : list event :=
  [ generate_content (model_args inp) (user_prompt inp);
    status_update "Analysis Complete" "complete" (Some false) ].

(** The success display below the banner, for given field values. *)
Definition result_events (w : World) (inp : Inputs)
  (conditions selection selection_odds danger danger_odds logic : pyval) : list event :=
  [ st_caption ("📍 " ++ meeting inp ++ " • " ++ str w conditions);
    st_columns 2;
    st_metric "🏆 THE SELECTION" selection selection_odds None;
    st_metric "⚠️ THE DANGER" danger danger_odds (Some "inverse");
    st_divider;
    st_subheader "📝 The Logic";
    st_info logic ].

(** ** A reference decoder and a reference world

    The theorems hold for every [World].  To run the script on concrete
    response texts the examples use the world below: a client that accepts
    every set-up and answers with a fixed reply, a decoder for the JSON
    grammar in the way [json.loads] reads it (messages without positions),
    and a metric that accepts [None], numbers and strings. *)

Module Json.

Definition json_error {A} (message : string) : exn + A :=
  inl (Raised "JSONDecodeError" message).

Definition is_ws (c : ascii) : bool :=
  match nat_of_ascii c with
  | 32 | 9 | 10 | 13 => true
  | _ => false
  end.

Fixpoint skip_ws (s : string) : string :=
  match s with
  | String c s' => if is_ws c then skip_ws s' else s
  | EmptyString => s
  end.

Definition digit_of (c : ascii) : option Z :=
  let n := Z.of_nat (nat_of_ascii c) in
  if ((48 <=? n) && (n <=? 57))%Z then Some (n - 48)%Z else None.

Definition hex_of (c : ascii) : option Z :=
  let n := Z.of_nat (nat_of_ascii c) in
  if ((48 <=? n) && (n <=? 57))%Z then Some (n - 48)%Z
  else if ((97 <=? n) && (n <=? 102))%Z then Some (n - 87)%Z
  else if ((65 <=? n) && (n <=? 70))%Z then Some (n - 55)%Z
  else None.

(** The longest run of digits at the head of [s]: its value continuing [acc],
    how many there are, and what follows. *)
Fixpoint digits (acc : Z) (n : Z) (s : string) : Z * Z * string :=
  match s with
  | String c s' =>
      match digit_of c with
      | Some d => digits (10 * acc + d) (n + 1) s'
      | None => (acc, n, s)
      end
  | EmptyString => (acc, n, s)
  end.

(** The float nearest to [num / den] (ties to even), for positive [num] and
    [den]; infinity past the largest float. *)
Definition nearest_float (num den : Z) : float :=
  let e := (Z.log2 num - Z.log2 den)%Z in
  let above := if (0 <=? e)%Z then (den * 2 ^ e <=? num)%Z
               else (den <=? num * 2 ^ (- e))%Z in
  let fl := if above then e else (e - 1)%Z in
  let ex := Z.max (fl - 52) (-1074) in
  let n := if (0 <=? ex)%Z then num else (num * 2 ^ (- ex))%Z in
  let dv := if (0 <=? ex)%Z then (den * 2 ^ ex)%Z else den in
  let q := (n / dv)%Z in
  let r := (n mod dv)%Z in
  let up := match (2 * r ?= dv)%Z with
            | Lt => false
            | Eq => Z.odd q
            | Gt => true
            end in
  let m := if up then (q + 1)%Z else q in
  Z.ldexp (PrimFloat.of_uint63 (Uint63.of_Z m)) ex.

(** The number [m * 10^e10], negated when [neg]. *)
Definition float_of_decimal (neg : bool) (m e10 : Z) : float :=
  let f := if (m =? 0)%Z then PrimFloat.zero
           else if (0 <=? e10)%Z then nearest_float (m * 10 ^ e10) 1
           else nearest_float m (10 ^ (- e10)) in
  if neg then PrimFloat.opp f else f.

(** A number at the head of [s], after the optional sign: a zero or a run of
    digits that does not start with zero, then optionally a point with at
    least one digit, then optionally an exponent ([e] or [E], a sign or
    none, at least one digit).  An integer when it has neither fraction nor
    exponent. *)
Definition number (neg : bool) (s : string) : exn + (pyval * string) :=
  let '(i, ni, s1) :=
    match s with
    | String "0" s' => (0%Z, 1%Z, s')
    | _ => digits 0 0 s
    end in
  if (ni =? 0)%Z then json_error "Expecting value"
  else
    let '(m, nf, s2) :=
      match s1 with
      | String "." s' =>
          let '(m, nf, s'') := digits i 0 s' in
          if (nf =? 0)%Z then (i, 0%Z, s1) else (m, nf, s'')
      | _ => (i, 0%Z, s1)
      end in
    let exponent (s' : string) : option (Z * string) :=
      let '(sg, s'') :=
        match s' with
        | String "-" t => (true, t)
        | String "+" t => (false, t)
        | _ => (false, s')
        end in
      let '(x, nx, t) := digits 0 0 s'' in
      if (nx =? 0)%Z then None else Some (if sg then (- x)%Z else x, t) in
    let ex :=
      match s2 with
      | String "e" s' => exponent s'
      | String "E" s' => exponent s'
      | _ => None
      end in
    match ex with
    | Some (x, s3) => inr (PFloat (float_of_decimal neg m (x - nf)), s3)
    | None =>
        if (nf =? 0)%Z then inr (PInt (if neg then (- m)%Z else m), s2)
        else inr (PFloat (float_of_decimal neg m (- nf)), s2)
    end.

Definition byte (n : Z) : string := String (ascii_of_N (Z.to_N n)) EmptyString.

(** The UTF-8 bytes of a code point. *)
Definition utf8 (c : Z) : string :=
  if (c <? 128)%Z then byte c
  else if (c <? 2048)%Z then byte (192 + c / 64) ++ byte (128 + c mod 64)
  else if (c <? 65536)%Z then
    byte (224 + c / 4096) ++ byte (128 + (c / 64) mod 64) ++ byte (128 + c mod 64)
  else
    byte (240 + c / 262144) ++ byte (128 + (c / 4096) mod 64)
    ++ byte (128 + (c / 64) mod 64) ++ byte (128 + c mod 64).

(** Four hexadecimal digits at the head of [s]. *)
Definition hex4 (s : string) : option (Z * string) :=
  match s with
  | String a (String b (String c (String d s'))) =>
      match hex_of a, hex_of b, hex_of c, hex_of d with
      | Some x, Some y, Some z, Some t => Some (4096 * x + 256 * y + 16 * z + t, s')%Z
      | _, _, _, _ => None
      end
  | _ => None
  end.

(** The code point of a [\u] escape whose four digits gave [hi], and what
    follows it: a high surrogate followed by an escaped low surrogate is one
    code point. *)
Definition escaped_code (hi : Z) (t : string) : Z * string :=
  if ((55296 <=? hi) && (hi <=? 56319))%Z then
    match t with
    | String b (String "u" t') =>
        if Ascii.eqb b (ascii_of_nat 92) then
          match hex4 t' with
          | Some (lo, t'') =>
              if ((56320 <=? lo) && (lo <=? 57343))%Z
              then ((65536 + (hi - 55296) * 1024 + (lo - 56320))%Z, t'')
              else (hi, t)
          | None => (hi, t)
          end
        else (hi, t)
    | _ => (hi, t)
    end
  else (hi, t).

(** One character or escape at the head of the body of a string literal:
    [inr None] at the closing quote. *)
Definition piece (s : string) : exn + (option string * string) :=
  match s with
  | EmptyString => json_error "Unterminated string"
  | String c s' =>
      if Ascii.eqb c (ascii_of_nat 34) then inr (None, s')
      else if Ascii.eqb c (ascii_of_nat 92) then
        match s' with
        | String "u" s'' =>
            match hex4 s'' with
            | None => json_error "Invalid \uXXXX escape"
            | Some (hi, t) =>
                let '(code, rest) := escaped_code hi t in inr (Some (utf8 code), rest)
            end
        | String e s'' =>
            match nat_of_ascii e with
            | 34 | 92 | 47 => inr (Some (String e EmptyString), s'')
            | 98 => inr (Some (byte 8), s'')
            | 102 => inr (Some (byte 12), s'')
            | 110 => inr (Some (byte 10), s'')
            | 114 => inr (Some (byte 13), s'')
            | 116 => inr (Some (byte 9), s'')
            | _ => json_error "Invalid \escape"
            end
        | EmptyString => json_error "Unterminated string"
        end
      else if (nat_of_ascii c <? 32)%nat then json_error "Invalid control character"
      else inr (Some (String c EmptyString), s')
  end.

(** The rest of a string literal, after its opening quote; [n] bounds the
    number of pieces read. *)
Fixpoint chars (n : nat) (s : string) : exn + (string * string) :=
  match n with
  | O => json_error "Unterminated string"
  | S n' =>
      match piece s with
      | inl e => inl e
      | inr (None, rest) => inr (EmptyString, rest)
      | inr (Some p, rest) =>
          match chars n' rest with
          | inl e => inl e
          | inr (body, after) => inr (p ++ body, after)
          end
      end
  end.

(** [d[k] = v]: a key that is there keeps its place and takes the new value. *)
Fixpoint dict_set (k : string) (v : pyval) (d : list (string * pyval))
  : list (string * pyval) :=
  match d with
  | [] => [(k, v)]
  | (k', v') :: d' => if String.eqb k k' then (k, v) :: d' else (k', v') :: dict_set k v d'
  end.

Definition starts_with (c : ascii) (s : string) : option string :=
  match s with
  | String c' s' => if Ascii.eqb c c' then Some s' else None
  | EmptyString => None
  end.

(** A value at the head of [s]; the members of an object after its brace or
    a comma, collected into [d]; the elements of an array after its bracket
    or a comma, collected (last first) into [l]. *)
Fixpoint value (fuel : nat) (s : string) {struct fuel} : exn + (pyval * string) :=
  match fuel with
  | O => inl (Raised "RecursionError" "maximum recursion depth exceeded")
  | S fuel' =>
      match s with
      | String "{" s' =>
          match skip_ws s' with
          | String "}" t => inr (PDict [], t)
          | t => members fuel' [] t
          end
      | String "[" s' =>
          match skip_ws s' with
          | String "]" t => inr (PList [], t)
          | t => elements fuel' [] t
          end
      | String "-" s' =>
          match s' with
          | String "I" (String "n" (String "f" (String "i" (String "n"
              (String "i" (String "t" (String "y" t))))))) =>
              inr (PFloat PrimFloat.neg_infinity, t)
          | _ => number true s'
          end
      | String "n" (String "u" (String "l" (String "l" t))) => inr (PNone, t)
      | String "t" (String "r" (String "u" (String "e" t))) => inr (PBool true, t)
      | String "f" (String "a" (String "l" (String "s" (String "e" t)))) =>
          inr (PBool false, t)
      | String "N" (String "a" (String "N" t)) => inr (PFloat PrimFloat.nan, t)
      | String "I" (String "n" (String "f" (String "i" (String "n"
          (String "i" (String "t" (String "y" t))))))) =>
          inr (PFloat PrimFloat.infinity, t)
      | String c s' =>
          if Ascii.eqb c (ascii_of_nat 34) then
            match chars (S (String.length s')) s' with
            | inr (body, t) => inr (PStr body, t)
            | inl e => inl e
            end
          else number false s
      | EmptyString => json_error "Expecting value"
      end
  end
with members (fuel : nat) (d : list (string * pyval)) (s : string) {struct fuel}
  : exn + (pyval * string) :=
  match fuel with
  | O => inl (Raised "RecursionError" "maximum recursion depth exceeded")
  | S fuel' =>
      match starts_with (ascii_of_nat 34) s with
      | None => json_error "Expecting property name enclosed in double quotes"
      | Some s1 =>
          match chars (S (String.length s1)) s1 with
          | inl e => inl e
          | inr (k, s2) =>
              match skip_ws s2 with
              | String ":" s3 =>
                  match value fuel' (skip_ws s3) with
                  | inl e => inl e
                  | inr (v, s4) =>
                      match skip_ws s4 with
                      | String "}" t => inr (PDict (dict_set k v d), t)
                      | String "," t => members fuel' (dict_set k v d) (skip_ws t)
                      | _ => json_error "Expecting ',' delimiter"
                      end
                  end
              | _ => json_error "Expecting ':' delimiter"
              end
          end
      end
  end
with elements (fuel : nat) (l : list pyval) (s : string) {struct fuel}
  : exn + (pyval * string) :=
  match fuel with
  | O => inl (Raised "RecursionError" "maximum recursion depth exceeded")
  | S fuel' =>
      match value fuel' s with
      | inl e => inl e
      | inr (v, s1) =>
          match skip_ws s1 with
          | String "]" t => inr (PList (rev (v :: l)), t)
          | String "," t => elements fuel' (v :: l) (skip_ws t)
          | _ => json_error "Expecting ',' delimiter"
          end
      end
  end.

(** [json.loads(s)]: one value between optional white space.  A level of
    nesting takes two steps of [value], so twice the length is fuel enough. *)
Definition loads (s : string) : exn + pyval :=
  match value (S (2 * String.length s)) (skip_ws s) with
  | inl e => inl e
  | inr (v, rest) =>
      match skip_ws rest with
      | EmptyString => inr v
      | _ => json_error "Extra data"
      end
  end.

End Json.

Module Reference.

(** What [st.metric] takes for [value] and [delta]. *)
Definition metric_accepts (v : pyval) : bool :=
  match v with
  | PNone | PBool _ | PInt _ | PFloat _ | PStr _ => true
  | PList _ | PDict _ => false
  end.

Definition metric_check (value delta : pyval) : option exn :=
  if metric_accepts value && metric_accepts delta then None
  else Some (Raised "TypeError" "not an accepted type").

(** The world in which the model answers [reply].  The examples display no
    float and no string inside a list or dict, so the two [repr]s are
    placeholders. *)
Definition world (reply : exn + Response) : World :=
  {| w_float_repr := fun _ => "float";
     w_str_repr := quote;
     w_configure := fun _ => None;
     w_GenerativeModel := fun _ => None;
     w_generate_content := fun _ _ _ => reply;
     w_json_loads := Json.loads;
     w_metric_check := metric_check;
     w_encode_error := fun _ => Raised "UnicodeEncodeError" "surrogates not allowed" |}.

(** Response texts are written with ['] where the text has a double quote. *)
Fixpoint requote (s : string) : string :=
  match s with
  | EmptyString => EmptyString
  | String c s' =>
      String (if Ascii.eqb c "'"%char then ascii_of_nat 34 else c) (requote s')
  end.

Definition answers (txt : string) : World :=
  world (inr {| text := inr (requote txt) |}).

(** Scenario 1 of the specification: the 15:35 at Newbury on 2024-06-01, to
    win, with a key typed in the sidebar. *)
Definition newbury : Inputs :=
  {| secrets := [];
     key_field := "secret-key";
     race_time := {| hour := 15; minute := 35; second := 0; microsecond := 0 |};
     meeting := "Newbury";
     race_date := {| year := 2024; month := 6; day := 1 |};
     bet_type := Win;
     start_btn := true |}.

Definition newbury_text : string :=
  "{'conditions':'Soft, 2m4f','selection':'Storm King','selection_odds':'4/1',"
  ++ "'danger':'Bay Breeze','danger_odds':'7/2','jockey_alert':null,"
  ++ "'logic':'Soft ground favors stamina.'}".

Definition newbury_data : list (string * pyval) :=
  [ ("conditions", PStr "Soft, 2m4f");
    ("selection", PStr "Storm King");
    ("selection_odds", PStr "4/1");
    ("danger", PStr "Bay Breeze");
    ("danger_odds", PStr "7/2");
    ("jockey_alert", PNone);
    ("logic", PStr "Soft ground favors stamina.") ].

(** The same answer without its last key. *)
Definition no_logic_text : string :=
  "{'conditions':'Soft, 2m4f','selection':'Storm King','selection_odds':'4/1',"
  ++ "'danger':'Bay Breeze','danger_odds':'7/2','jockey_alert':null}".

Definition no_logic_data : list (string * pyval) :=
  [ ("conditions", PStr "Soft, 2m4f");
    ("selection", PStr "Storm King");
    ("selection_odds", PStr "4/1");
    ("danger", PStr "Bay Breeze");
    ("danger_odds", PStr "7/2");
    ("jockey_alert", PNone) ].

(** The same answer with an alert: a booking, or the empty string. *)
Definition alert_text_of (alert : string) : string :=
  "{'conditions':'Soft, 2m4f','selection':'Storm King','selection_odds':'4/1',"
  ++ "'danger':'Bay Breeze','danger_odds':'7/2','jockey_alert':'" ++ alert ++ "',"
  ++ "'logic':'Soft ground favors stamina.'}".

(** The same form with nothing in the sidebar: no secret and an empty field. *)
Definition no_key : Inputs :=
  {| secrets := [];
     key_field := EmptyString;
     race_time := race_time newbury;
     meeting := meeting newbury;
     race_date := race_date newbury;
     bet_type := bet_type newbury;
     start_btn := true |}.

(** The same form with a key and no meeting. *)
Definition no_meeting : Inputs :=
  {| secrets := secrets newbury;
     key_field := key_field newbury;
     race_time := race_time newbury;
     meeting := EmptyString;
     race_date := race_date newbury;
     bet_type := bet_type newbury;
     start_btn := true |}.

End Reference.

(** ** Further readings of a run *)

Module More.

(** The state [status.update] last gave the status line, if it was updated. *)
Fixpoint last_status (t : list event) : option string :=
  match t with
  | [] => None
  | ev :: t' =>
      match last_status t' with
      | Some s => Some s
      | None =>
          match ev with
          | status_update _ s _ => Some s
          | _ => None
          end
      end
  end.

(** The first key, in the order the display reads them, that the object
    does not have. *)
Definition first_missing (d : list (string * pyval)) : option string :=
  find (fun k => negb (has_key (PDict d) k)) required_keys.

(** The value under [k], [None] for a key that is not there. *)
Definition field (d : list (string * pyval)) (k : string) : pyval :=
  match lookup k d with
  | Some v => v
  | None => PNone
  end.

(** The success display in full, in the order the script writes it, with
    [None] standing for a field that is not there. *)
Definition full_display (w : World) (inp : Inputs) (d : list (string * pyval))
  : list event :=
  (fst (alert_banner w (PDict d))
   ++ result_events w inp (field d "conditions") (field d "selection")
        (field d "selection_odds") (field d "danger") (field d "danger_odds")
        (field d "logic"))%list.

(** The same run with [typed] in the sidebar's text input. *)
Definition with_key_field (typed : string) (inp : Inputs) : Inputs :=
  {| secrets := secrets inp;
     key_field := typed;
     race_time := race_time inp;
     meeting := meeting inp;
     race_date := race_date inp;
     bet_type := bet_type inp;
     start_btn := start_btn inp |}.

(** Two runs with the same race form (they may differ in the key). *)
Definition same_form (inp1 inp2 : Inputs) : Prop :=
  race_time inp1 = race_time inp2
  /\ meeting inp1 = meeting inp2
  /\ race_date inp1 = race_date inp2
  /\ bet_type inp1 = bet_type inp2.

End More.
Import More.

(** More runs of the reference world. *)
Module Cases.

(** The Newbury form before the button is pressed. *)
Definition not_pressed : Inputs :=
  {| secrets := secrets Reference.newbury;
     key_field := key_field Reference.newbury;
     race_time := race_time Reference.newbury;
     meeting := meeting Reference.newbury;
     race_date := race_date Reference.newbury;
     bet_type := bet_type Reference.newbury;
     start_btn := false |}.

(** The Newbury form with a key in the secrets. *)
Definition with_secret (key : pyval) : Inputs :=
  {| secrets := [("GOOGLE_API_KEY", key)];
     key_field := EmptyString;
     race_time := race_time Reference.newbury;
     meeting := meeting Reference.newbury;
     race_date := race_date Reference.newbury;
     bet_type := bet_type Reference.newbury;
     start_btn := true |}.

(** A world whose client refuses the key, and one whose client refuses the
    model arguments. *)
Definition refusing_key (e : exn) : World :=
  {| w_float_repr := fun _ => "float";
     w_str_repr := quote;
     w_configure := fun _ => Some e;
     w_GenerativeModel := fun _ => None;
     w_generate_content := fun _ _ _ => inl e;
     w_json_loads := Json.loads;
     w_metric_check := Reference.metric_check;
     w_encode_error := fun _ => Raised "UnicodeEncodeError" "surrogates not allowed" |}.

Definition refusing_model (e : exn) : World :=
  {| w_float_repr := fun _ => "float";
     w_str_repr := quote;
     w_configure := fun _ => None;
     w_GenerativeModel := fun _ => Some e;
     w_generate_content := fun _ _ _ => inl e;
     w_json_loads := Json.loads;
     w_metric_check := Reference.metric_check;
     w_encode_error := fun _ => Raised "UnicodeEncodeError" "surrogates not allowed" |}.

(** The code point U+D800, a surrogate, as the decoder keeps it. *)
Definition surrogate : string :=
  String (ascii_of_nat 237) (String (ascii_of_nat 160) (String (ascii_of_nat 128)
    EmptyString)).

(** The Newbury answer with a lone surrogate for the conditions. *)
Definition surrogate_conditions_text : string :=
  "{'conditions':'\ud800','selection':'Storm King','selection_odds':'4/1',"
  ++ "'danger':'Bay Breeze','danger_odds':'7/2',"
  ++ "'logic':'Soft ground favors stamina.'}".

Definition surrogate_conditions_data : list (string * pyval) :=
  [ ("conditions", PStr surrogate);
    ("selection", PStr "Storm King");
    ("selection_odds", PStr "4/1");
    ("danger", PStr "Bay Breeze");
    ("danger_odds", PStr "7/2");
    ("logic", PStr "Soft ground favors stamina.") ].

(** The Newbury answer with a list for the selection. *)
Definition list_selection_text : string :=
  "{'conditions':'Soft, 2m4f','selection':['Storm King','Red Rum'],"
  ++ "'selection_odds':'4/1','danger':'Bay Breeze','danger_odds':'7/2',"
  ++ "'logic':'Soft ground favors stamina.'}".

Definition list_selection_data : list (string * pyval) :=
  [ ("conditions", PStr "Soft, 2m4f");
    ("selection", PList [PStr "Storm King"; PStr "Red Rum"]);
    ("selection_odds", PStr "4/1");
    ("danger", PStr "Bay Breeze");
    ("danger_odds", PStr "7/2");
    ("logic", PStr "Soft ground favors stamina.") ].

(** An answer without its conditions and with a list for the selection. *)
Definition no_conditions_text : string :=
  "{'selection':['Storm King','Red Rum'],'selection_odds':'4/1',"
  ++ "'danger':'Bay Breeze','danger_odds':'7/2',"
  ++ "'logic':'Soft ground favors stamina.'}".

Definition no_conditions_data : list (string * pyval) :=
  [ ("selection", PList [PStr "Storm King"; PStr "Red Rum"]);
    ("selection_odds", PStr "4/1");
    ("danger", PStr "Bay Breeze");
    ("danger_odds", PStr "7/2");
    ("logic", PStr "Soft ground favors stamina.") ].

(** The Newbury answer without its danger, and with a note and another
    order of the keys. *)
Definition no_danger_text : string :=
  "{'conditions':'Soft, 2m4f','selection':'Storm King','selection_odds':'4/1',"
  ++ "'danger_odds':'7/2','logic':'Soft ground favors stamina.'}".

Definition no_danger_data : list (string * pyval) :=
  [ ("conditions", PStr "Soft, 2m4f");
    ("selection", PStr "Storm King");
    ("selection_odds", PStr "4/1");
    ("danger_odds", PStr "7/2");
    ("logic", PStr "Soft ground favors stamina.") ].

Definition shuffled_data : list (string * pyval) :=
  [ ("note", PStr "going may change");
    ("logic", PStr "Soft ground favors stamina.");
    ("jockey_alert", PNone);
    ("danger_odds", PStr "7/2");
    ("danger", PStr "Bay Breeze");
    ("selection_odds", PStr "4/1");
    ("selection", PStr "Storm King");
    ("conditions", PStr "Soft, 2m4f");
    ("conditions", PStr "Heavy") ].

End Cases.

(** The status line set to complete, and the warning about the key. *)
Definition is_complete_update (ev : event) : bool :=
  match ev with
  | status_update _ state _ => String.eqb state "complete"
  | _ => false
  end.

Definition is_warning (ev : event) : bool :=
  match ev with
  | st_warning _ => true
  | _ => false
  end.
(** ** General facts *)

Example time_str_default :
  time_str {| hour := 15; minute := 35; second := 0; microsecond := 0 |} = "15:35:00".
Proof. reflexivity. Qed.

Example date_str_example :
  date_str {| year := 2024; month := 6; day := 1 |} = "2024-06-01".
Proof. reflexivity. Qed.

(** One step of a symbolic run of the display: split on the next lookup,
    truth test or type check the code performs. *)
Ltac run_step :=
  cbn [bind lift emit ret fst snd app py_get py_getitem dict_getitem
       returns_or_raises];
  unfold dict_getitem, returns_or_raises;
  match goal with
  | H : lookup ?k ?d = _ |- context [lookup ?k ?d] => rewrite H
  | H : has_surrogate ?t = _ |- context [has_surrogate ?t] => rewrite H
  | H : w_metric_check ?w ?a ?b = _ |- context [w_metric_check ?w ?a ?b] => rewrite H
  | |- context [match lookup ?k ?d with _ => _ end] =>
      let E := fresh "E" in destruct (lookup k d) eqn:E
  | |- context [if truthy ?v then _ else _] =>
      let E := fresh "T" in destruct (truthy v) eqn:E
  | |- context [if ne_str ?v ?s then _ else _] =>
      let E := fresh "N" in destruct (ne_str v s) eqn:E
  | |- context [if has_surrogate ?t then _ else _] =>
      let E := fresh "S" in destruct (has_surrogate t) eqn:E
  | |- context [match w_metric_check ?w ?a ?b with _ => _ end] =>
      let E := fresh "C" in destruct (w_metric_check w a b) eqn:E
  end.

Ltac run_display :=
  unfold display, alert_banner, metric, element; repeat run_step;
  cbn [bind lift emit ret fst snd app py_get py_getitem dict_getitem
       returns_or_raises].

Section Facts.
Variable w : World.
Local Open Scope py_scope.

Lemma try_except_inl {A} (body : M A) (h : exn -> M A) (e : exn) :
  snd body = inl e ->
  try_except body h = ((fst body ++ fst (h e))%list, snd (h e)).
Proof. unfold try_except. now intros ->. Qed.

(** The handler returns: no exception leaves the [try] statement. *)
Lemma try_handler_returns (body : M unit) :
  snd (try_except body handler) = inr tt.
Proof.
  unfold try_except. destruct body as [t [e | []]]; reflexivity.
Qed.

Lemma try_handler_trace (body : M unit) (e : exn) :
  snd body = inl e ->
  fst (try_except body handler) = (fst body ++ error_report e)%list.
Proof.
  intros H. rewrite (try_except_inl _ _ _ H). reflexivity.
Qed.

(** Past the guard and the client set-up, a run is the [try] statement
    after the set-up events, and it returns. *)
Lemma agent_logic_submitted (inp : Inputs) :
  start_btn inp = true ->
  truthy (api_key inp) = true ->
  str_nonempty (meeting inp) = true ->
  w_configure w (api_key inp) = None ->
  w_GenerativeModel w (model_args inp) = None ->
  agent_logic w inp
  = ((setup_events inp ++ fst (try_except (attempt w inp) handler))%list, inr tt).
Proof.
  intros Hb Hk Hm Hc Hg. unfold agent_logic, call.
  rewrite Hb, Hk, Hm, Hc, Hg. cbn [andb returns_or_raises].
  unfold bind, emit, lift, ret. cbn [fst snd app].
  rewrite try_handler_returns. reflexivity.
Qed.

(** The [try] body up to the display. *)
Lemma attempt_decoded (inp : Inputs) (r : Response) (txt : string) (data : pyval) :
  w_generate_content w (api_key inp) (model_args inp) (user_prompt inp) = inr r ->
  text r = inr txt ->
  w_json_loads w txt = inr data ->
  attempt w inp
  = (generate_content (model_args inp) (user_prompt inp)
       :: status_update "Analysis Complete" "complete" (Some false)
       :: fst (display w inp data),
     snd (display w inp data)).
Proof.
  intros Hr Ht Hd. unfold attempt, call.
  rewrite Hr. cbn [emit lift bind fst snd app].
  rewrite Ht. cbn [emit lift bind fst snd app].
  rewrite Hd. cbn [emit lift bind fst snd app]. reflexivity.
Qed.

(** The three ways the [try] body fails before the display. *)
Lemma attempt_failed (inp : Inputs) (e : exn) :
  w_generate_content w (api_key inp) (model_args inp) (user_prompt inp) = inl e
  \/ (exists r, w_generate_content w (api_key inp) (model_args inp) (user_prompt inp) = inr r
                /\ text r = inl e)
  \/ (exists r txt, w_generate_content w (api_key inp) (model_args inp) (user_prompt inp) = inr r
                    /\ text r = inr txt /\ w_json_loads w txt = inl e) ->
  attempt w inp = ([generate_content (model_args inp) (user_prompt inp)], inl e).
Proof.
  unfold attempt, call.
  intros [Hr | [(r & Hr & Ht) | (r & txt & Hr & Ht & Hd)]]; rewrite Hr;
    cbn [emit lift bind fst snd app]; try reflexivity;
    rewrite Ht; cbn [emit lift bind fst snd app]; try reflexivity.
  rewrite Hd. reflexivity.
Qed.

(** The banner step on a dict: it calls [st.error] exactly when the value is
    truthy and differs from the string "null", and the call writes the banner
    or raises for a text that cannot be encoded. *)
Lemma alert_banner_dict (d : list (string * pyval)) :
  alert_banner w (PDict d)
  = match lookup "jockey_alert" d with
    | Some v =>
        if truthy v && ne_str v "null"
        then if has_surrogate (alert_text w v)
             then ([], inl (w_encode_error w (alert_text w v)))
             else ([st_error (alert_text w v)], inr tt)
        else ([], inr tt)
    | None => ([], inr tt)
    end.
Proof.
  unfold alert_banner, element. repeat run_step; try reflexivity; discriminate.
Qed.

(** On anything but a dict the display stops at [data.get]. *)
Lemma display_not_dict (inp : Inputs) (data : pyval) :
  (forall d, data <> PDict d) ->
  display w inp data = ([], inl (AttributeError (type_name data) "get")).
Proof.
  intros H. destruct data; try reflexivity. now elim (H d).
Qed.

(** The script subscripts [data] only where [data.get] has returned. *)
Lemma subscript_after_get (data : pyval) (v : pyval) :
  py_get data "jockey_alert" = inr v -> exists d, data = PDict d.
Proof.
  destruct data; try discriminate. intros _. now exists d.
Qed.

(** The display never writes the handler's report. *)
Lemma display_no_oops (inp : Inputs) (data : pyval) :
  existsb is_oops (fst (display w inp data)) = false.
Proof.
  destruct data; try reflexivity. run_display; reflexivity.
Qed.

(** The logic panel is the last thing the display writes: it is on the page
    exactly when the display returned. *)
Lemma display_info_iff_returns (inp : Inputs) (data : pyval) :
  existsb is_info (fst (display w inp data)) = true <-> snd (display w inp data) = inr tt.
Proof.
  destruct data; try (split; discriminate).
  run_display; split; (reflexivity || discriminate).
Qed.

(** A display that returns has found every required key. *)
Lemma display_returns_keys (inp : Inputs) (data : pyval) :
  snd (display w inp data) = inr tt ->
  forall k, In k required_keys -> has_key data k = true.
Proof.
  destruct data; try discriminate.
  run_display; try discriminate.
  all: intros _ k Hk; cbn in Hk;
    repeat (destruct Hk as [<- | Hk]; [ cbn; now rewrite ?E0, ?E1, ?E2, ?E3, ?E4, ?E5, ?E6 | ]);
    contradiction.
Qed.

Lemma str_nonempty_iff (s : string) : str_nonempty s = true <-> s <> EmptyString.
Proof. destruct s; cbn; split; congruence. Qed.

Lemma ne_str_iff (a s : string) : ne_str (PStr a) s = true <-> a <> s.
Proof.
  cbn. rewrite negb_true_iff. split.
  - intros H. now apply String.eqb_neq.
  - intros H. now apply String.eqb_neq.
Qed.

(** A submission whose client set-up returns and whose answer decodes: the
    page is the set-up, the request, the status line and then the display
    under the handler. *)
Lemma run_decoded (inp : Inputs) (data : pyval) :
  submitted inp -> client_ready w inp -> decoded w inp data ->
  agent_logic w inp
  = ((setup_events inp ++ answered_events inp
        ++ fst (try_except (display w inp data) handler))%list, inr tt).
Proof.
  intros (Hb & Hk & Hm) (Hc & Hg) (txt & (r & Hr & Ht) & Hd).
  apply str_nonempty_iff in Hm.
  rewrite (agent_logic_submitted inp Hb Hk Hm Hc Hg).
  rewrite (attempt_decoded inp r txt data Hr Ht Hd).
  unfold try_except. cbn [fst snd].
  destruct (display w inp data) as [t [e | []]]; reflexivity.
Qed.

(** A submission whose [try] body fails before the display: the page is the
    set-up, the request and the report. *)
Lemma run_failed (inp : Inputs) (e : exn) :
  submitted inp -> client_ready w inp ->
  attempt w inp = ([generate_content (model_args inp) (user_prompt inp)], inl e) ->
  agent_logic w inp
  = ((setup_events inp
        ++ generate_content (model_args inp) (user_prompt inp) :: error_report e)%list,
     inr tt).
Proof.
  intros (Hb & Hk & Hm) (Hc & Hg) Ha.
  apply str_nonempty_iff in Hm.
  rewrite (agent_logic_submitted inp Hb Hk Hm Hc Hg), Ha. reflexivity.
Qed.

Lemma count_app (p : event -> bool) (t u : list event) :
  count p (t ++ u) = count p t + count p u.
Proof. unfold count. now rewrite filter_app, length_app. Qed.

Lemma count_none (p : event -> bool) (t : list event) :
  existsb p t = false -> count p t = 0.
Proof.
  unfold count. induction t as [| ev t IH]; cbn; [reflexivity |].
  destruct (p ev); cbn; [discriminate | exact IH].
Qed.

Lemma count_report (e : exn) : count is_oops (error_report e) = 1.
Proof. reflexivity. Qed.

(** Before it raises, the [try] body writes no report of its own. *)
Lemma attempt_no_oops (inp : Inputs) :
  existsb is_oops (fst (attempt w inp)) = false.
Proof.
  unfold attempt, call.
  destruct (w_generate_content w (api_key inp) (model_args inp) (user_prompt inp)) as [e | r];
    [reflexivity |].
  cbn [emit lift bind fst snd app].
  destruct (text r) as [e | txt]; [reflexivity |].
  cbn [emit lift bind fst snd app].
  destruct (w_json_loads w txt) as [e | data]; [reflexivity |].
  cbn [emit lift bind fst snd app existsb is_oops orb].
  apply display_no_oops.
Qed.

(** With every required key there, both cards accepted and the three texts
    encodable, the display runs to its end: the banner step, then the fields
    as they were decoded. *)
Lemma display_complete (inp : Inputs) (d : list (string * pyval))
  (c s so dg dgo l : pyval) :
  lookup "conditions" d = Some c ->
  lookup "selection" d = Some s ->
  lookup "selection_odds" d = Some so ->
  lookup "danger" d = Some dg ->
  lookup "danger_odds" d = Some dgo ->
  lookup "logic" d = Some l ->
  w_metric_check w s so = None ->
  w_metric_check w dg dgo = None ->
  snd (alert_banner w (PDict d)) = inr tt ->
  has_surrogate (caption_text w inp c) = false ->
  has_surrogate (str w l) = false ->
  display w inp (PDict d)
  = ((fst (alert_banner w (PDict d)) ++ result_events w inp c s so dg dgo l)%list, inr tt).
Proof.
  intros Hc Hs Hso Hdg Hdgo Hl M1 M2 Hb S1 S2.
  unfold display. destruct (alert_banner w (PDict d)) as [t r].
  cbn [snd] in Hb. subst r. unfold metric, element.
  cbn [bind fst snd py_getitem dict_getitem lift emit].
  unfold dict_getitem. rewrite Hc. cbn [bind fst snd lift emit app].
  rewrite S1. cbn [bind fst snd lift emit app].
  rewrite Hs, Hso. cbn [bind fst snd lift emit app]. rewrite M1.
  cbn [bind fst snd lift emit app returns_or_raises].
  rewrite Hdg, Hdgo. cbn [bind fst snd lift emit app]. rewrite M2.
  cbn [bind fst snd lift emit app returns_or_raises].
  rewrite Hl. cbn [bind fst snd lift emit app]. rewrite S2.
  reflexivity.
Qed.

(** A banner step that returns has written nothing or the banner. *)
Lemma alert_banner_returns (d : list (string * pyval)) :
  snd (alert_banner w (PDict d)) = inr tt ->
  fst (alert_banner w (PDict d)) = []
  \/ exists v, lookup "jockey_alert" d = Some v
               /\ fst (alert_banner w (PDict d)) = [st_error (alert_text w v)].
Proof.
  rewrite alert_banner_dict.
  destruct (lookup "jockey_alert" d) as [v |]; [| now left].
  destruct (truthy v && ne_str v "null"); [| now left].
  destruct (has_surrogate (alert_text w v)); [discriminate |].
  intros _. right. now exists v.
Qed.

End Facts.

(** Surrogates are the code points from U+D800 to U+DFFF. *)
Example has_surrogate_bounds :
  has_surrogate (Json.utf8 55295) = false
  /\ has_surrogate (Json.utf8 55296) = true
  /\ has_surrogate ("a" ++ Json.utf8 57343 ++ "b") = true
  /\ has_surrogate (Json.utf8 57344) = false
  /\ has_surrogate "📍 Newbury • Soft, 2m4f 😀 é" = false.
Proof. repeat split; vm_compute; reflexivity. Qed.

Example loads_lone_surrogate :
  Json.loads (Reference.requote "['\ud800', '\ud83d\ude00']")
  = inr (PList [PStr Cases.surrogate; PStr "😀"]).
Proof. vm_compute. reflexivity. Qed.

(** ** The reference decoder on the scenario texts *)

Example loads_newbury :
  Json.loads (Reference.requote Reference.newbury_text) = inr (PDict Reference.newbury_data).
Proof. vm_compute. reflexivity. Qed.

Example loads_truncated :
  Json.loads (Reference.requote "{'conditions':'Soft, 2m4f','selec")
  = inl (Raised "JSONDecodeError" "Unterminated string").
Proof. vm_compute. reflexivity. Qed.

Example loads_last_key_wins :
  Json.loads (Reference.requote "{'a': 1, 'b': [true, null], 'a': -2}")
  = inr (PDict [("a", PInt (-2)); ("b", PList [PBool true; PNone])]).
Proof. vm_compute. reflexivity. Qed.

Example loads_float :
  Json.loads "[0.1, 1e22, 5e-324, 1e-400]"
  = inr (PList [PFloat 0x1.999999999999ap-4; PFloat 0x1.0f0cf064dd592p+73;
                PFloat 0x0.0000000000001p-1022; PFloat 0]).
Proof. vm_compute. reflexivity. Qed.

Example prompt_newbury :
  user_prompt Reference.newbury
  = "Analyze the 15:35:00 race at Newbury (2024-06-01) for a Win bet.".
Proof. reflexivity. Qed.

(** ** The guard *)

(** C3: a submission without a credential (the key is empty, absent, or any
    other false value) makes no call to the generation client, and the page
    shows the warning that asks for the API key, whatever the other inputs
    are. *)
Theorem missing_credential_blocks_call (w : World) (inp : Inputs) :
  start_btn inp = true ->
  truthy (api_key inp) = false ->
  agent_logic w inp = ([st_warning "Please enter your API Key."], inr tt)
  /\ existsb is_client_call (fst (agent_logic w inp)) = false.
Proof.
  intros Hb Hk. assert (E : agent_logic w inp
                         = ([st_warning "Please enter your API Key."], inr tt)).
  { unfold agent_logic. now rewrite Hb, Hk. }
  now rewrite E.
Qed.

Lemma missing_credential_witness :
  agent_logic (Reference.answers Reference.newbury_text) Reference.no_key
  = ([st_warning "Please enter your API Key."], inr tt)
  /\ existsb is_client_call
       (fst (agent_logic (Reference.answers Reference.newbury_text) Reference.no_key))
     = false.
Proof.
  apply missing_credential_blocks_call; reflexivity.
Defined.

(** No secret and nothing typed is a missing credential. *)
Lemma absent_key_is_falsy (inp : Inputs) :
  lookup "GOOGLE_API_KEY" (secrets inp) = None ->
  key_field inp = EmptyString ->
  truthy (api_key inp) = false.
Proof. unfold api_key. now intros -> ->. Qed.

(** C6: without a meeting name the generation call is never attempted (nor
    any other call to the client), whatever the key and the other inputs
    are. *)
Theorem missing_meeting_blocks_call (w : World) (inp : Inputs) :
  meeting inp = EmptyString ->
  existsb is_generation (fst (agent_logic w inp)) = false
  /\ existsb is_client_call (fst (agent_logic w inp)) = false.
Proof.
  intros Hm. unfold agent_logic. rewrite Hm. cbn [str_nonempty].
  rewrite andb_false_r.
  destruct (start_btn inp && negb (truthy (api_key inp))); split; reflexivity.
Qed.

Lemma missing_meeting_witness :
  existsb is_generation
    (fst (agent_logic (Reference.answers Reference.newbury_text) Reference.no_meeting))
  = false
  /\ existsb is_client_call
       (fst (agent_logic (Reference.answers Reference.newbury_text) Reference.no_meeting))
     = false.
Proof.
  apply missing_meeting_blocks_call; reflexivity.
Defined.

(** ** The handler *)

(** The two client calls before the [try] are not under the handler: an
    exception of theirs leaves the script. *)
Lemma setup_failure_escapes (w : World) (inp : Inputs) (e : exn) :
  submitted inp ->
  w_configure w (api_key inp) = Some e ->
  agent_logic w inp = ([genai_configure (api_key inp)], inl e).
Proof.
  intros (Hb & Hk & Hm) Hc. apply str_nonempty_iff in Hm.
  unfold agent_logic, call. rewrite Hb, Hk, Hm, Hc. reflexivity.
Qed.

(** C5, as stated, fails when a call of the client set-up raises: the request
    is submitted, [GenerativeModel] raises before the [try], and the
    exception leaves the script; the error branch is not reached and nothing
    is reported. *)
Lemma setup_exception_is_not_caught :
  let e := Raised "ValueError" "unknown tool" in
  let w := Cases.refusing_model e in
  let inp := Reference.newbury in
  submitted inp
  /\ agent_logic w inp
     = ([ genai_configure (api_key inp);
          st_status "🚀 Agent Working..." true;
          genai_GenerativeModel (model_args inp) ], inl e)
  /\ existsb is_oops (fst (agent_logic w inp)) = false.
Proof.
  cbv zeta. split; [| split].
  - repeat split; discriminate.
  - reflexivity.
  - reflexivity.
Qed.

(** C5 (amended): in a submitted request whose two client calls before the
    [try] return, every exception raised in the [try] body, by the network
    call, by reading the response text, by the JSON decoding (or later, by
    the display), is caught: the run returns, and the page ends with the
    error status and one error message made of [str(e)].  When the failure
    is in the call, the text or the decoding, that report is all there is
    after the request.  An exception of [genai.configure] or of
    [GenerativeModel] is not caught: it leaves the script, with no report. *)
Theorem exceptions_reach_handler (w : World) (inp : Inputs) :
  submitted inp ->
  (client_ready w inp ->
   snd (agent_logic w inp) = inr tt
   /\ (forall e,
         w_generate_content w (api_key inp) (model_args inp) (user_prompt inp) = inl e
         \/ (exists r, w_generate_content w (api_key inp) (model_args inp)
                         (user_prompt inp) = inr r
                       /\ text r = inl e)
         \/ (exists r txt, w_generate_content w (api_key inp) (model_args inp)
                             (user_prompt inp) = inr r
                           /\ text r = inr txt /\ w_json_loads w txt = inl e) ->
         fst (agent_logic w inp)
         = (setup_events inp
              ++ [ generate_content (model_args inp) (user_prompt inp);
                   status_update "Error" "error" None;
                   st_error ("Oops: " ++ exn_str e) ])%list)
   /\ (forall e,
         snd (attempt w inp) = inl e ->
         fst (agent_logic w inp)
         = (setup_events inp ++ fst (attempt w inp)
              ++ [ status_update "Error" "error" None;
                   st_error ("Oops: " ++ exn_str e) ])%list
         /\ count is_oops (fst (agent_logic w inp)) = 1))
  /\ (forall e,
        w_configure w (api_key inp) = Some e
        \/ (w_configure w (api_key inp) = None
            /\ w_GenerativeModel w (model_args inp) = Some e) ->
        snd (agent_logic w inp) = inl e
        /\ count is_oops (fst (agent_logic w inp)) = 0
        /\ count is_generation (fst (agent_logic w inp)) = 0).
Proof.
  intros Hs. pose proof Hs as (Hb & Hk & Hm).
  apply str_nonempty_iff in Hm. split.
  - intros Hc. pose proof Hc as (Hc1 & Hc2).
    pose proof (agent_logic_submitted w inp Hb Hk Hm Hc1 Hc2) as E.
    split; [now rewrite E | split].
    + intros e He. apply (attempt_failed w) in He.
      now rewrite (run_failed w inp e Hs Hc He).
    + intros e He. rewrite E. cbn [fst].
      rewrite (try_handler_trace _ e He). split; [reflexivity |].
      rewrite !count_app, count_report.
      rewrite (count_none _ _ (attempt_no_oops w inp)). reflexivity.
  - intros e [Hc | (Hc & Hg)]; unfold agent_logic, call.
    + rewrite Hb, Hk, Hm, Hc. repeat split.
    + rewrite Hb, Hk, Hm, Hc, Hg. repeat split.
Qed.

Lemma exceptions_reach_handler_witness :
  let w := Reference.world (inl (Raised "ServiceUnavailable" "503 overloaded")) in
  let inp := Reference.newbury in
  (snd (agent_logic w inp) = inr tt
   /\ fst (agent_logic w inp)
      = (setup_events inp
           ++ [ generate_content (model_args inp) (user_prompt inp);
                status_update "Error" "error" None;
                st_error "Oops: 503 overloaded" ])%list)
  /\ snd (agent_logic (Cases.refusing_key (Raised "ValueError" "invalid key")) inp)
     = inl (Raised "ValueError" "invalid key").
Proof.
  intros w inp.
  assert (Hs : submitted inp) by (repeat split; discriminate).
  assert (Hc : client_ready w inp) by (split; reflexivity).
  split.
  - destruct (proj1 (exceptions_reach_handler w inp Hs) Hc) as (H1 & H2 & _).
    split; [exact H1 |].
    exact (H2 (Raised "ServiceUnavailable" "503 overloaded") (or_introl eq_refl)).
  - apply (proj2 (exceptions_reach_handler
                    (Cases.refusing_key (Raised "ValueError" "invalid key")) inp Hs)
             (Raised "ValueError" "invalid key")).
    left. reflexivity.
Defined.

(** C10: when the response text is JSON for something that is not an object
    (a list, a string, a number, a boolean, [null]), the display stops at
    [data.get]: the run returns, the page shows the error status and a single
    error message, and no element of the success display. *)
Theorem non_object_json_is_an_error (w : World) (inp : Inputs) (data : pyval) :
  submitted inp -> client_ready w inp -> decoded w inp data ->
  (forall d, data <> PDict d) ->
  agent_logic w inp
  = ((setup_events inp
        ++ [ generate_content (model_args inp) (user_prompt inp);
             status_update "Analysis Complete" "complete" (Some false);
             status_update "Error" "error" None;
             st_error ("Oops: '" ++ type_name data ++ "' object has no attribute 'get'") ])%list,
     inr tt)
  /\ existsb is_success_output (fst (agent_logic w inp)) = false
  /\ count is_oops (fst (agent_logic w inp)) = 1.
Proof.
  intros Hs Hc Hd Hn.
  rewrite (run_decoded w inp data Hs Hc Hd).
  rewrite (display_not_dict w inp data Hn).
  split; [reflexivity | split; reflexivity].
Qed.

Lemma non_object_json_witness :
  let w := Reference.answers "['Storm King', '4/1']" in
  let inp := Reference.newbury in
  agent_logic w inp
  = ((setup_events inp
        ++ [ generate_content (model_args inp) (user_prompt inp);
             status_update "Analysis Complete" "complete" (Some false);
             status_update "Error" "error" None;
             st_error "Oops: 'list' object has no attribute 'get'" ])%list,
     inr tt)
  /\ existsb is_success_output (fst (agent_logic w inp)) = false
  /\ count is_oops (fst (agent_logic w inp)) = 1.
Proof.
  intros w inp.
  apply (non_object_json_is_an_error w inp (PList [PStr "Storm King"; PStr "4/1"])).
  - repeat split; discriminate.
  - split; reflexivity.
  - eexists. split; [eexists; split; reflexivity |]. vm_compute. reflexivity.
  - discriminate.
Defined.

(** ** The success display *)

(** C4, as stated, fails for answers that have every required key.  With a
    list for the selection, [st.metric] refuses the card and the run takes
    the error path after the caption; with a lone surrogate for the
    conditions, [st.caption] raises and nothing of the display is written.
    Neither page has the logic panel. *)
Lemma complete_response_can_fail :
  let inp := Reference.newbury in
  (let w := Reference.answers Cases.list_selection_text in
   w_json_loads w (Reference.requote Cases.list_selection_text)
   = inr (PDict Cases.list_selection_data)
   /\ forallb (has_key (PDict Cases.list_selection_data)) required_keys = true
   /\ agent_logic w inp
      = ((setup_events inp
            ++ [ generate_content (model_args inp) (user_prompt inp);
                 status_update "Analysis Complete" "complete" (Some false);
                 st_caption "📍 Newbury • Soft, 2m4f";
                 st_columns 2;
                 status_update "Error" "error" None;
                 st_error "Oops: not an accepted type" ])%list,
         inr tt)
   /\ existsb is_info (fst (agent_logic w inp)) = false)
  /\ (let w := Reference.answers Cases.surrogate_conditions_text in
      w_json_loads w (Reference.requote Cases.surrogate_conditions_text)
      = inr (PDict Cases.surrogate_conditions_data)
      /\ forallb (has_key (PDict Cases.surrogate_conditions_data)) required_keys = true
      /\ agent_logic w inp
         = ((setup_events inp
               ++ [ generate_content (model_args inp) (user_prompt inp);
                    status_update "Analysis Complete" "complete" (Some false);
                    status_update "Error" "error" None;
                    st_error "Oops: surrogates not allowed" ])%list,
            inr tt)
      /\ existsb is_info (fst (agent_logic w inp)) = false).
Proof.
  cbv zeta. repeat split; vm_compute; reflexivity.
Qed.

(** C4 (amended): when the response text is JSON for an object that has every
    required key, [st.metric] accepts the two cards, and the texts to show
    (the alert if any, the caption, the logic) can be encoded, the run
    returns and the page shows, after the banner step, the decoded values as
    they are: the conditions in the caption (the string itself when it is a
    string, [str] of the value otherwise), selection and danger with their
    odds in the two cards, the logic in the panel. *)
Theorem well_formed_response_rendered (w : World) (inp : Inputs)
  (d : list (string * pyval)) (c s so dg dgo l : pyval) :
  submitted inp -> client_ready w inp -> decoded w inp (PDict d) ->
  lookup "conditions" d = Some c ->
  lookup "selection" d = Some s ->
  lookup "selection_odds" d = Some so ->
  lookup "danger" d = Some dg ->
  lookup "danger_odds" d = Some dgo ->
  lookup "logic" d = Some l ->
  w_metric_check w s so = None ->
  w_metric_check w dg dgo = None ->
  snd (alert_banner w (PDict d)) = inr tt ->
  has_surrogate ("📍 " ++ meeting inp ++ " • " ++ str w c) = false ->
  has_surrogate (str w l) = false ->
  agent_logic w inp
  = ((setup_events inp
        ++ [ generate_content (model_args inp) (user_prompt inp);
             status_update "Analysis Complete" "complete" (Some false) ]
        ++ fst (alert_banner w (PDict d))
        ++ [ st_caption ("📍 " ++ meeting inp ++ " • " ++ str w c);
             st_columns 2;
             st_metric "🏆 THE SELECTION" s so None;
             st_metric "⚠️ THE DANGER" dg dgo (Some "inverse");
             st_divider;
             st_subheader "📝 The Logic";
             st_info l ])%list,
     inr tt)
  /\ (forall x, c = PStr x -> str w c = x)
  /\ str w PNone = "None"
  /\ str w (PBool true) = "True"
  /\ str w (PBool false) = "False"
  /\ str w (PInt (-12)) = "-12"
  /\ str w (PList [PInt 1; PNone; PList []]) = "[1, None, []]"
  /\ str w (PList [PStr "a"; PStr "b"])
     = "[" ++ (w_str_repr w "a" ++ ", " ++ w_str_repr w "b") ++ "]"
  /\ str w (PDict [("k", PBool false)]) = "{" ++ (w_str_repr w "k" ++ ": False") ++ "}".
Proof.
  intros Hs Hc Hd Kc Ks Kso Kdg Kdgo Kl M1 M2 Hb S1 S2.
  split; [| split; [now intros x -> | repeat split]].
  rewrite (run_decoded w inp _ Hs Hc Hd).
  rewrite (display_complete w inp d c s so dg dgo l Kc Ks Kso Kdg Kdgo Kl M1 M2 Hb S1 S2).
  reflexivity.
Qed.

Lemma well_formed_response_witness :
  let w := Reference.answers Reference.newbury_text in
  let inp := Reference.newbury in
  agent_logic w inp
  = ((setup_events inp
        ++ [ generate_content (model_args inp) (user_prompt inp);
             status_update "Analysis Complete" "complete" (Some false) ]
        ++ fst (alert_banner w (PDict Reference.newbury_data))
        ++ [ st_caption ("📍 " ++ meeting inp ++ " • " ++ str w (PStr "Soft, 2m4f"));
             st_columns 2;
             st_metric "🏆 THE SELECTION" (PStr "Storm King") (PStr "4/1") None;
             st_metric "⚠️ THE DANGER" (PStr "Bay Breeze") (PStr "7/2") (Some "inverse");
             st_divider;
             st_subheader "📝 The Logic";
             st_info (PStr "Soft ground favors stamina.") ])%list,
     inr tt).
Proof.
  intros w inp.
  apply (well_formed_response_rendered w inp Reference.newbury_data
           (PStr "Soft, 2m4f") (PStr "Storm King") (PStr "4/1")
           (PStr "Bay Breeze") (PStr "7/2") (PStr "Soft ground favors stamina.")).
  - repeat split; discriminate.
  - split; reflexivity.
  - eexists. split; [eexists; split; reflexivity |]. vm_compute. reflexivity.
  - reflexivity.
  - reflexivity.
  - reflexivity.
  - reflexivity.
  - reflexivity.
  - reflexivity.
  - reflexivity.
  - reflexivity.
  - reflexivity.
  - vm_compute. reflexivity.
  - vm_compute. reflexivity.
Defined.

(** C8: scenario 1.  For the 15:35 at Newbury on 2024-06-01, to win, and the
    response text of the specification, the page shows no alert, the caption
    with "Newbury • Soft, 2m4f" after its pin, the selection card with
    Storm King at 4/1, the danger card with Bay Breeze at 7/2, and the logic
    text as given. *)
Theorem newbury_scenario (w : World) (inp : Inputs) :
  meeting inp = "Newbury" ->
  race_time inp = {| hour := 15; minute := 35; second := 0; microsecond := 0 |} ->
  race_date inp = {| year := 2024; month := 6; day := 1 |} ->
  bet_type inp = Win ->
  start_btn inp = true ->
  truthy (api_key inp) = true ->
  client_ready w inp ->
  replied w inp (Reference.requote Reference.newbury_text) ->
  w_json_loads w (Reference.requote Reference.newbury_text)
  = inr (PDict Reference.newbury_data) ->
  w_metric_check w (PStr "Storm King") (PStr "4/1") = None ->
  w_metric_check w (PStr "Bay Breeze") (PStr "7/2") = None ->
  agent_logic w inp
  = ((setup_events inp
        ++ [ generate_content (model_args inp)
               "Analyze the 15:35:00 race at Newbury (2024-06-01) for a Win bet.";
             status_update "Analysis Complete" "complete" (Some false);
             st_caption "📍 Newbury • Soft, 2m4f";
             st_columns 2;
             st_metric "🏆 THE SELECTION" (PStr "Storm King") (PStr "4/1") None;
             st_metric "⚠️ THE DANGER" (PStr "Bay Breeze") (PStr "7/2") (Some "inverse");
             st_divider;
             st_subheader "📝 The Logic";
             st_info (PStr "Soft ground favors stamina.") ])%list,
     inr tt)
  /\ existsb is_banner (fst (agent_logic w inp)) = false.
Proof.
  intros Hm Ht Hdt Hbt Hb Hk Hc Hr Hj M1 M2.
  assert (Hs : submitted inp).
  { repeat split; trivial. rewrite Hm. discriminate. }
  assert (Hd : decoded w inp (PDict Reference.newbury_data)).
  { exists (Reference.requote Reference.newbury_text). now split. }
  assert (E : agent_logic w inp
              = ((setup_events inp ++ answered_events inp
                    ++ result_events w inp (PStr "Soft, 2m4f") (PStr "Storm King")
                         (PStr "4/1") (PStr "Bay Breeze") (PStr "7/2")
                         (PStr "Soft ground favors stamina."))%list, inr tt)).
  { rewrite (run_decoded w inp _ Hs Hc Hd).
    rewrite (display_complete w inp Reference.newbury_data _ _ _ _ _ _
               eq_refl eq_refl eq_refl eq_refl eq_refl eq_refl M1 M2).
    - reflexivity.
    - reflexivity.
    - unfold caption_text. rewrite Hm. reflexivity.
    - reflexivity. }
  rewrite E. unfold answered_events, result_events, user_prompt.
  rewrite Hm, Ht, Hdt, Hbt. split; reflexivity.
Qed.

Lemma newbury_scenario_witness :
  let w := Reference.answers Reference.newbury_text in
  let inp := Reference.newbury in
  agent_logic w inp
  = ((setup_events inp
        ++ [ generate_content (model_args inp)
               "Analyze the 15:35:00 race at Newbury (2024-06-01) for a Win bet.";
             status_update "Analysis Complete" "complete" (Some false);
             st_caption "📍 Newbury • Soft, 2m4f";
             st_columns 2;
             st_metric "🏆 THE SELECTION" (PStr "Storm King") (PStr "4/1") None;
             st_metric "⚠️ THE DANGER" (PStr "Bay Breeze") (PStr "7/2") (Some "inverse");
             st_divider;
             st_subheader "📝 The Logic";
             st_info (PStr "Soft ground favors stamina.") ])%list,
     inr tt)
  /\ existsb is_banner (fst (agent_logic w inp)) = false.
Proof.
  intros w inp. apply (newbury_scenario w inp).
  - reflexivity.
  - reflexivity.
  - reflexivity.
  - reflexivity.
  - reflexivity.
  - reflexivity.
  - split; reflexivity.
  - eexists. split; reflexivity.
  - vm_compute. reflexivity.
  - reflexivity.
  - reflexivity.
Defined.

(** ** The jockey alert *)

(** The heading of the banner holds no surrogate and ends in a space. *)
Lemma has_surrogate_alert (s : string) :
  has_surrogate ("🚨 **JOCKEY ALERT:** " ++ s) = has_surrogate s.
Proof. destruct s; reflexivity. Qed.

(** A complete display, by the fields of the object. *)
Lemma display_returns_page (w : World) (inp : Inputs) (d : list (string * pyval)) :
  snd (display w inp (PDict d)) = inr tt ->
  display w inp (PDict d)
  = ((fst (alert_banner w (PDict d))
        ++ result_events w inp (field d "conditions") (field d "selection")
             (field d "selection_odds") (field d "danger") (field d "danger_odds")
             (field d "logic"))%list, inr tt).
Proof.
  unfold result_events, field.
  run_display; try discriminate; reflexivity.
Qed.

(** C2, as stated, fails at the empty string: it is a string value other
    than "null", and the banner step writes nothing for it.  It also fails
    at a string that holds a lone surrogate: [st.error] raises and no banner
    is written. *)
Lemma empty_alert_is_no_alert :
  let w := Reference.answers Reference.newbury_text in
  let d := [("jockey_alert", PStr EmptyString)] in
  (lookup "jockey_alert" d = Some (PStr EmptyString)
   /\ EmptyString <> "null"
   /\ alert_banner w (PDict d) = ([], inr tt))
  /\ (Cases.surrogate <> "null"
      /\ alert_banner w (PDict [("jockey_alert", PStr Cases.surrogate)])
         = ([], inl (Raised "UnicodeEncodeError" "surrogates not allowed"))).
Proof.
  cbv zeta. split; split; [reflexivity | split | discriminate | reflexivity];
    [discriminate | reflexivity].
Qed.

(** C2 (amended): on every decoded object, when the key is absent, or its
    value is [null] or the string "null", the banner step writes nothing and
    returns; when its value is any other non-empty string that can be
    encoded, the banner is written with exactly that string after its
    heading; when that string holds a lone surrogate, [st.error] raises and
    nothing is written. *)
Theorem jockey_alert_normalization (w : World) (d : list (string * pyval)) :
  (lookup "jockey_alert" d = None
   \/ lookup "jockey_alert" d = Some PNone
   \/ lookup "jockey_alert" d = Some (PStr "null") ->
   alert_banner w (PDict d) = ([], inr tt))
  /\ (forall s,
        lookup "jockey_alert" d = Some (PStr s) ->
        s <> EmptyString -> s <> "null" ->
        (has_surrogate s = false ->
         alert_banner w (PDict d)
         = ([st_error ("🚨 **JOCKEY ALERT:** " ++ s)], inr tt))
        /\ (has_surrogate s = true ->
            alert_banner w (PDict d)
            = ([], inl (w_encode_error w ("🚨 **JOCKEY ALERT:** " ++ s))))).
Proof.
  rewrite alert_banner_dict. split.
  - intros [-> | [-> | ->]]; reflexivity.
  - intros s -> Hs Hn.
    apply str_nonempty_iff in Hs. apply (ne_str_iff s "null") in Hn.
    cbn [truthy]. rewrite Hs, Hn. cbn [andb].
    unfold alert_text. cbn [str py_str]. rewrite has_surrogate_alert.
    split; intros ->; reflexivity.
Qed.

Lemma jockey_alert_normalization_witness :
  let w := Reference.answers Reference.newbury_text in
  alert_banner w (PDict Reference.newbury_data) = ([], inr tt)
  /\ alert_banner w (PDict [("jockey_alert", PStr "J. Smith booked")])
     = ([st_error "🚨 **JOCKEY ALERT:** J. Smith booked"], inr tt)
  /\ alert_banner w (PDict [("jockey_alert", PStr Cases.surrogate)])
     = ([], inl (w_encode_error w ("🚨 **JOCKEY ALERT:** " ++ Cases.surrogate))).
Proof.
  intros w. split; [| split].
  - apply (jockey_alert_normalization w Reference.newbury_data).
    right. left. reflexivity.
  - apply (jockey_alert_normalization w [("jockey_alert", PStr "J. Smith booked")]).
    + reflexivity.
    + discriminate.
    + discriminate.
    + reflexivity.
  - apply (jockey_alert_normalization w [("jockey_alert", PStr Cases.surrogate)]).
    + reflexivity.
    + discriminate.
    + discriminate.
    + reflexivity.
Defined.

(** C9: the guard tests the truth value of [data.get("jockey_alert")], so a
    false value (the empty string, [false], 0, an empty list or object) is no
    alert, exactly like an absent key, [null] or the string "null": the
    banner step writes nothing and the display writes no banner. *)
Theorem falsy_alert_is_no_alert (w : World) (inp : Inputs)
  (d : list (string * pyval)) (v : pyval) :
  lookup "jockey_alert" d = Some v ->
  truthy v = false ->
  alert_banner w (PDict d) = ([], inr tt)
  /\ alert_banner w (PDict d) = alert_banner w (PDict [])
  /\ existsb is_banner (fst (display w inp (PDict d))) = false.
Proof.
  intros Hv Ht. split; [| split].
  - rewrite alert_banner_dict, Hv, Ht. reflexivity.
  - rewrite !alert_banner_dict, Hv, Ht. reflexivity.
  - unfold display. rewrite alert_banner_dict, Hv, Ht. unfold metric, element.
    repeat run_step; reflexivity.
Qed.

Lemma falsy_alert_witness :
  let w := Reference.answers Reference.newbury_text in
  let page := fun v =>
    fst (display w Reference.newbury (PDict [("jockey_alert", v)])) in
  let banner := fun v => alert_banner w (PDict [("jockey_alert", v)]) in
  (banner (PStr EmptyString) = ([], inr tt)
   /\ banner (PStr EmptyString) = alert_banner w (PDict [])
   /\ existsb is_banner (page (PStr EmptyString)) = false)
  /\ (banner (PBool false) = ([], inr tt)
      /\ banner (PBool false) = alert_banner w (PDict [])
      /\ existsb is_banner (page (PBool false)) = false)
  /\ (banner (PInt 0) = ([], inr tt)
      /\ banner (PInt 0) = alert_banner w (PDict [])
      /\ existsb is_banner (page (PInt 0)) = false).
Proof.
  intros w page banner. split; [| split].
  - apply (falsy_alert_is_no_alert w Reference.newbury _ (PStr EmptyString));
      reflexivity.
  - apply (falsy_alert_is_no_alert w Reference.newbury _ (PBool false));
      reflexivity.
  - apply (falsy_alert_is_no_alert w Reference.newbury _ (PInt 0));
      reflexivity.
Defined.

(** C7, as stated, fails at the empty string: the response is complete, its
    [jockey_alert] is a string that is neither [null] nor "null", and the page
    has no banner; the caption comes first. *)
Lemma empty_alert_shows_no_banner :
  let w := Reference.answers (Reference.alert_text_of EmptyString) in
  let inp := Reference.newbury in
  w_json_loads w (Reference.requote (Reference.alert_text_of EmptyString))
  = inr (PDict [ ("conditions", PStr "Soft, 2m4f");
                 ("selection", PStr "Storm King");
                 ("selection_odds", PStr "4/1");
                 ("danger", PStr "Bay Breeze");
                 ("danger_odds", PStr "7/2");
                 ("jockey_alert", PStr EmptyString);
                 ("logic", PStr "Soft ground favors stamina.") ])
  /\ agent_logic w inp
     = ((setup_events inp
           ++ [ generate_content (model_args inp) (user_prompt inp);
                status_update "Analysis Complete" "complete" (Some false);
                st_caption "📍 Newbury • Soft, 2m4f";
                st_columns 2;
                st_metric "🏆 THE SELECTION" (PStr "Storm King") (PStr "4/1") None;
                st_metric "⚠️ THE DANGER" (PStr "Bay Breeze") (PStr "7/2") (Some "inverse");
                st_divider;
                st_subheader "📝 The Logic";
                st_info (PStr "Soft ground favors stamina.") ])%list,
        inr tt)
  /\ existsb is_banner (fst (agent_logic w inp)) = false.
Proof.
  cbv zeta. split; [| split]; vm_compute; reflexivity.
Qed.

(** C7 (amended): in a successful response (one whose display completes)
    whose [jockey_alert] is a non-empty string other than "null", the banner
    with that text is the first element of the success display: it follows
    the status line, and the caption, the cards and the logic panel follow
    it. *)
Theorem alert_banner_comes_first (w : World) (inp : Inputs)
  (d : list (string * pyval)) (a : string) :
  submitted inp -> client_ready w inp -> decoded w inp (PDict d) ->
  snd (display w inp (PDict d)) = inr tt ->
  lookup "jockey_alert" d = Some (PStr a) ->
  a <> EmptyString -> a <> "null" ->
  agent_logic w inp
  = ((setup_events inp
        ++ [ generate_content (model_args inp) (user_prompt inp);
             status_update "Analysis Complete" "complete" (Some false);
             st_error ("🚨 **JOCKEY ALERT:** " ++ a);
             st_caption ("📍 " ++ meeting inp ++ " • " ++ str w (field d "conditions"));
             st_columns 2;
             st_metric "🏆 THE SELECTION"
               (field d "selection") (field d "selection_odds") None;
             st_metric "⚠️ THE DANGER"
               (field d "danger") (field d "danger_odds") (Some "inverse");
             st_divider;
             st_subheader "📝 The Logic";
             st_info (field d "logic") ])%list,
     inr tt)
  /\ existsb is_success_output
       (setup_events inp
          ++ [ generate_content (model_args inp) (user_prompt inp);
               status_update "Analysis Complete" "complete" (Some false) ]) = false.
Proof.
  intros Hs Hc Hd Hr Ka Ha Hn.
  split; [| reflexivity].
  rewrite (run_decoded w inp _ Hs Hc Hd).
  pose proof (display_returns_page w inp d Hr) as P.
  assert (B : alert_banner w (PDict d)
              = ([st_error ("🚨 **JOCKEY ALERT:** " ++ a)], inr tt)).
  { assert (R : snd (alert_banner w (PDict d)) = inr tt).
    { revert Hr. unfold display, bind.
      destruct (snd (alert_banner w (PDict d))) as [e | []];
        [discriminate | reflexivity]. }
    revert R. rewrite alert_banner_dict, Ka.
    apply str_nonempty_iff in Ha. apply (ne_str_iff a "null") in Hn.
    cbn [truthy]. rewrite Ha, Hn. cbn [andb].
    destruct (has_surrogate (alert_text w (PStr a))); [discriminate |].
    reflexivity. }
  rewrite B in P. rewrite P. reflexivity.
Qed.

Lemma alert_banner_comes_first_witness :
  let w := Reference.answers (Reference.alert_text_of "J. Smith booked") in
  let inp := Reference.newbury in
  agent_logic w inp
  = ((setup_events inp
        ++ [ generate_content (model_args inp) (user_prompt inp);
             status_update "Analysis Complete" "complete" (Some false);
             st_error "🚨 **JOCKEY ALERT:** J. Smith booked";
             st_caption "📍 Newbury • Soft, 2m4f";
             st_columns 2;
             st_metric "🏆 THE SELECTION" (PStr "Storm King") (PStr "4/1") None;
             st_metric "⚠️ THE DANGER" (PStr "Bay Breeze") (PStr "7/2") (Some "inverse");
             st_divider;
             st_subheader "📝 The Logic";
             st_info (PStr "Soft ground favors stamina.") ])%list,
     inr tt)
  /\ existsb is_success_output
       (setup_events inp
          ++ [ generate_content (model_args inp) (user_prompt inp);
               status_update "Analysis Complete" "complete" (Some false) ]) = false.
Proof.
  intros w inp.
  apply (alert_banner_comes_first w inp
           [ ("conditions", PStr "Soft, 2m4f");
             ("selection", PStr "Storm King");
             ("selection_odds", PStr "4/1");
             ("danger", PStr "Bay Breeze");
             ("danger_odds", PStr "7/2");
             ("jockey_alert", PStr "J. Smith booked");
             ("logic", PStr "Soft ground favors stamina.") ]
           "J. Smith booked").
  - repeat split; discriminate.
  - split; reflexivity.
  - eexists. split; [eexists; split; reflexivity |]. vm_compute. reflexivity.
  - vm_compute. reflexivity.
  - reflexivity.
  - discriminate.
  - discriminate.
Defined.

(** ** Malformed responses *)

(** C1, as stated, fails for an answer that is valid JSON without its
    [logic] key: the handler's report is on the page, and so are the caption,
    both cards, the rule and the heading of the logic panel, written before
    [data['logic']] raised. *)
Lemma missing_logic_leaves_partial_page :
  let w := Reference.answers Reference.no_logic_text in
  let inp := Reference.newbury in
  w_json_loads w (Reference.requote Reference.no_logic_text)
  = inr (PDict Reference.no_logic_data)
  /\ has_key (PDict Reference.no_logic_data) "logic" = false
  /\ agent_logic w inp
     = ((setup_events inp
           ++ [ generate_content (model_args inp) (user_prompt inp);
                status_update "Analysis Complete" "complete" (Some false);
                st_caption "📍 Newbury • Soft, 2m4f";
                st_columns 2;
                st_metric "🏆 THE SELECTION" (PStr "Storm King") (PStr "4/1") None;
                st_metric "⚠️ THE DANGER" (PStr "Bay Breeze") (PStr "7/2") (Some "inverse");
                st_divider;
                st_subheader "📝 The Logic";
                status_update "Error" "error" None;
                st_error "Oops: 'logic'" ])%list,
        inr tt)
  /\ existsb is_success_output (fst (agent_logic w inp)) = true.
Proof.
  cbv zeta. split; [| split; [| split]]; vm_compute; reflexivity.
Qed.

(** C1 (amended): a response whose text is not valid JSON yields the error
    report and no element of the success display.  A response that is valid
    JSON but lacks a required key also ends in the error report, exactly one,
    after whatever the display wrote before the failing access; the display
    is never completed: the logic panel's text is not on the page. *)
Theorem malformed_response_is_an_error (w : World) (inp : Inputs) :
  submitted inp -> client_ready w inp ->
  (forall txt e,
     replied w inp txt -> w_json_loads w txt = inl e ->
     agent_logic w inp
     = ((setup_events inp
           ++ [ generate_content (model_args inp) (user_prompt inp);
                status_update "Error" "error" None;
                st_error ("Oops: " ++ exn_str e) ])%list,
        inr tt)
     /\ existsb is_success_output (fst (agent_logic w inp)) = false)
  /\ (forall data k,
        decoded w inp data -> In k required_keys -> has_key data k = false ->
        exists e,
          snd (display w inp data) = inl e
          /\ agent_logic w inp
             = ((setup_events inp
                   ++ [ generate_content (model_args inp) (user_prompt inp);
                        status_update "Analysis Complete" "complete" (Some false) ]
                   ++ fst (display w inp data)
                   ++ [ status_update "Error" "error" None;
                        st_error ("Oops: " ++ exn_str e) ])%list,
                inr tt)
          /\ existsb is_info (fst (agent_logic w inp)) = false
          /\ count is_oops (fst (agent_logic w inp)) = 1).
Proof.
  intros Hs Hc. split.
  - intros txt e (r & Hr & Ht) Hj.
    assert (Ha : attempt w inp
                 = ([generate_content (model_args inp) (user_prompt inp)], inl e)).
    { apply attempt_failed. right. right. now exists r, txt. }
    rewrite (run_failed w inp e Hs Hc Ha). split; reflexivity.
  - intros data k Hd Hk Hn.
    destruct (snd (display w inp data)) as [e | []] eqn:E.
    2:{ rewrite (display_returns_keys w inp data E k Hk) in Hn. discriminate. }
    exists e. split; [reflexivity |].
    assert (R : agent_logic w inp
                = ((setup_events inp ++ answered_events inp
                      ++ fst (display w inp data) ++ error_report e)%list, inr tt)).
    { rewrite (run_decoded w inp data Hs Hc Hd).
      now rewrite (try_handler_trace _ e E). }
    rewrite R. split; [reflexivity | split].
    + cbn [fst]. rewrite !existsb_app.
      assert (I : existsb is_info (fst (display w inp data)) = false).
      { destruct (existsb is_info (fst (display w inp data))) eqn:I; [| reflexivity].
        apply display_info_iff_returns in I. congruence. }
      rewrite I. reflexivity.
    + cbn [fst]. rewrite !count_app, count_report.
      rewrite (count_none _ _ (display_no_oops w inp data)). reflexivity.
Qed.

Lemma malformed_response_witness :
  let inp := Reference.newbury in
  (let w := Reference.answers "{'conditions':'Soft, 2m4f','selec" in
   agent_logic w inp
   = ((setup_events inp
         ++ [ generate_content (model_args inp) (user_prompt inp);
              status_update "Error" "error" None;
              st_error "Oops: Unterminated string" ])%list,
      inr tt)
   /\ existsb is_success_output (fst (agent_logic w inp)) = false)
  /\ (let w := Reference.answers Reference.no_logic_text in
      exists e,
        snd (display w inp (PDict (Reference.no_logic_data))) = inl e
        /\ agent_logic w inp
           = ((setup_events inp
                 ++ [ generate_content (model_args inp) (user_prompt inp);
                      status_update "Analysis Complete" "complete" (Some false) ]
                 ++ fst (display w inp (PDict (Reference.no_logic_data)))
                 ++ [ status_update "Error" "error" None;
                      st_error ("Oops: " ++ exn_str e) ])%list,
              inr tt)
        /\ existsb is_info (fst (agent_logic w inp)) = false
        /\ count is_oops (fst (agent_logic w inp)) = 1).
Proof.
  intros inp. split.
  - intros w.
    assert (Hs : submitted inp) by (repeat split; discriminate).
    assert (Hc : client_ready w inp) by (split; reflexivity).
    apply (proj1 (malformed_response_is_an_error w inp Hs Hc)
             (Reference.requote "{'conditions':'Soft, 2m4f','selec")
             (Raised "JSONDecodeError" "Unterminated string")).
    + eexists. split; reflexivity.
    + vm_compute. reflexivity.
  - intros w.
    assert (Hs : submitted inp) by (repeat split; discriminate).
    assert (Hc : client_ready w inp) by (split; reflexivity).
    apply (proj2 (malformed_response_is_an_error w inp Hs Hc)
             (PDict (Reference.no_logic_data)) "logic").
    + eexists. split; [eexists; split; reflexivity |]. vm_compute. reflexivity.
    + cbn. tauto.
    + reflexivity.
Defined.

(** ** More on the guard *)

(** X1: the agent logic does nothing at all (no element written, nothing
    called) exactly in two situations: the button was not pressed, or it was
    pressed with a key and without a meeting.  The second one is silent: the
    only message of the script is the one about the key. *)
Theorem silent_exactly_when (w : World) (inp : Inputs) :
  (fst (agent_logic w inp) = []
   <-> start_btn inp = false
       \/ (truthy (api_key inp) = true /\ meeting inp = EmptyString))
  /\ (start_btn inp = false
      \/ (truthy (api_key inp) = true /\ meeting inp = EmptyString) ->
      agent_logic w inp = ([], inr tt)).
Proof.
  assert (R : start_btn inp = false
              \/ (truthy (api_key inp) = true /\ meeting inp = EmptyString) ->
              agent_logic w inp = ([], inr tt)).
  { intros [Hb | (Hk & Hm)]; unfold agent_logic.
    - now rewrite Hb.
    - rewrite Hk, Hm. cbn [str_nonempty negb]. now rewrite !andb_false_r. }
  split; [| exact R]. split; [| intros H; now rewrite (R H)].
  intros E.
  destruct (start_btn inp) eqn:Hb; [right | now left].
  destruct (truthy (api_key inp)) eqn:Hk.
  - split; [reflexivity |].
    destruct (meeting inp) as [| c m] eqn:Hm; [reflexivity | exfalso].
    unfold agent_logic, call in E. rewrite Hb, Hk, Hm in E.
    cbn [andb str_nonempty bind emit fst snd] in E.
    destruct (returns_or_raises (w_configure w (api_key inp))) in E; discriminate E.
  - unfold agent_logic in E. rewrite Hb, Hk in E. discriminate E.
Qed.

Lemma silent_exactly_when_witness :
  let w := Reference.answers Reference.newbury_text in
  agent_logic w Cases.not_pressed = ([], inr tt)
  /\ agent_logic w Reference.no_meeting = ([], inr tt).
Proof.
  intros w. split.
  - apply (proj2 (silent_exactly_when w Cases.not_pressed)). left. reflexivity.
  - apply (proj2 (silent_exactly_when w Reference.no_meeting)). right.
    split; reflexivity.
Defined.

(** X2: a key in the secrets takes the place of the text input: what is
    typed there changes nothing of the run, and a secret that is a false
    value (an empty string) turns every press into the warning. *)
Theorem secret_overrides_typed_key (w : World) (inp : Inputs) (v : pyval) (typed : string) :
  lookup "GOOGLE_API_KEY" (secrets inp) = Some v ->
  api_key (with_key_field typed inp) = v
  /\ agent_logic w (with_key_field typed inp) = agent_logic w inp
  /\ (start_btn inp = true -> truthy v = false ->
      agent_logic w (with_key_field typed inp)
      = ([st_warning "Please enter your API Key."], inr tt)).
Proof.
  intros Hv.
  assert (K : api_key (with_key_field typed inp) = v).
  { unfold api_key, with_key_field. cbn [secrets]. now rewrite Hv. }
  assert (K' : api_key inp = v).
  { unfold api_key. now rewrite Hv. }
  split; [exact K | split].
  - unfold agent_logic, attempt. rewrite K, K'. reflexivity.
  - intros Hb Ht. unfold agent_logic. rewrite K. cbn [with_key_field start_btn].
    now rewrite Hb, Ht.
Qed.

Lemma secret_overrides_typed_key_witness :
  let w := Reference.answers Reference.newbury_text in
  (api_key (with_key_field "typed-key" (Cases.with_secret (PStr "cloud-key")))
   = PStr "cloud-key"
   /\ agent_logic w (with_key_field "typed-key" (Cases.with_secret (PStr "cloud-key")))
      = agent_logic w (Cases.with_secret (PStr "cloud-key")))
  /\ agent_logic w (with_key_field "typed-key" (Cases.with_secret (PStr EmptyString)))
     = ([st_warning "Please enter your API Key."], inr tt).
Proof.
  intros w. split.
  - destruct (secret_overrides_typed_key w (Cases.with_secret (PStr "cloud-key"))
                (PStr "cloud-key") "typed-key" eq_refl) as (H1 & H2 & _).
    split; [exact H1 | exact H2].
  - destruct (secret_overrides_typed_key w (Cases.with_secret (PStr EmptyString))
                (PStr EmptyString) "typed-key" eq_refl) as (_ & _ & H3).
    apply H3; reflexivity.
Defined.

(** ** More general facts *)

Section MoreFacts.
Variable w : World.

(** The ways a run can go. *)
Lemma agent_logic_cases (inp : Inputs) :
  agent_logic w inp = ([], inr tt)
  \/ agent_logic w inp = ([st_warning "Please enter your API Key."], inr tt)
  \/ (exists e, agent_logic w inp = ([genai_configure (api_key inp)], inl e))
  \/ (exists e, agent_logic w inp
                = ([ genai_configure (api_key inp);
                     st_status "🚀 Agent Working..." true;
                     genai_GenerativeModel (model_args inp) ], inl e))
  \/ (submitted inp /\ client_ready w inp).
Proof.
  unfold agent_logic, call.
  destruct (start_btn inp) eqn:Hb; [| now left].
  destruct (truthy (api_key inp)) eqn:Hk; [| right; now left].
  destruct (str_nonempty (meeting inp)) eqn:Hm; [| now left].
  cbn [andb].
  destruct (w_configure w (api_key inp)) as [e |] eqn:Hc.
  { right. right. left. now exists e. }
  destruct (w_GenerativeModel w (model_args inp)) as [e |] eqn:Hg.
  { right. right. right. left. now exists e. }
  right. right. right. right.
  apply str_nonempty_iff in Hm. now repeat split.
Qed.

(** The ways the [try] body can go: it fails at the request, at the text or
    at the decoding, or it reaches the display with the decoded value. *)
Lemma attempt_cases (inp : Inputs) :
  (exists e, attempt w inp
             = ([generate_content (model_args inp) (user_prompt inp)], inl e))
  \/ (exists data,
        decoded w inp data
        /\ attempt w inp
           = ((answered_events inp ++ fst (display w inp data))%list,
              snd (display w inp data))).
Proof.
  destruct (w_generate_content w (api_key inp) (model_args inp) (user_prompt inp)) as [e | r] eqn:Hr.
  { left. exists e. apply attempt_failed. now left. }
  destruct (text r) as [e | txt] eqn:Ht.
  { left. exists e. apply attempt_failed. right. left. now exists r. }
  destruct (w_json_loads w txt) as [e | data] eqn:Hd.
  { left. exists e. apply attempt_failed. right. right. now exists r, txt. }
  right. exists data. split.
  - exists txt. split; [now exists r | exact Hd].
  - apply (attempt_decoded w inp r txt data Hr Ht Hd).
Qed.

Lemma display_no_generation (inp : Inputs) (data : pyval) :
  existsb is_generation (fst (display w inp data)) = false.
Proof.
  destruct data; try reflexivity. run_display; reflexivity.
Qed.

Lemma display_no_status (inp : Inputs) (data : pyval) :
  last_status (fst (display w inp data)) = None.
Proof.
  destruct data; try reflexivity. run_display; reflexivity.
Qed.

Lemma last_status_app (t u : list event) :
  last_status (t ++ u)
  = match last_status u with
    | Some s => Some s
    | None => last_status t
    end.
Proof.
  induction t as [| ev t IH]; cbn [app last_status].
  - now destruct (last_status u).
  - rewrite IH. now destruct (last_status u).
Qed.

(** The request is the first thing the [try] body does, and the only one. *)
Lemma attempt_one_request (inp : Inputs) :
  count is_generation (fst (attempt w inp)) = 1.
Proof.
  destruct (attempt_cases inp) as [(e & ->) | (data & _ & ->)]; [reflexivity |].
  cbn [fst]. rewrite count_app.
  rewrite (count_none _ _ (display_no_generation inp data)). reflexivity.
Qed.

(** The logic panel is on the page of the [try] body exactly when the body
    returned. *)
Lemma attempt_info_iff_returns (inp : Inputs) :
  existsb is_info (fst (attempt w inp)) = true <-> snd (attempt w inp) = inr tt.
Proof.
  destruct (attempt_cases inp) as [(e & ->) | (data & _ & ->)].
  - split; discriminate.
  - cbn [fst snd]. rewrite existsb_app. cbn [answered_events existsb is_info orb].
    apply display_info_iff_returns.
Qed.

(** The page of a submitted run, by the outcome of the [try] body. *)
Lemma run_by_outcome (inp : Inputs) :
  submitted inp -> client_ready w inp ->
  match snd (attempt w inp) with
  | inr _ => fst (agent_logic w inp) = (setup_events inp ++ fst (attempt w inp))%list
  | inl e => fst (agent_logic w inp)
             = (setup_events inp ++ fst (attempt w inp) ++ error_report e)%list
  end.
Proof.
  intros (Hb & Hk & Hm) (Hc & Hg). apply str_nonempty_iff in Hm.
  rewrite (agent_logic_submitted w inp Hb Hk Hm Hc Hg). cbn [fst].
  destruct (snd (attempt w inp)) as [e | u] eqn:E.
  - now rewrite (try_handler_trace _ e E).
  - unfold try_except. now rewrite E.
Qed.

End MoreFacts.

(** ** One request, one outcome *)

(** X4: a run sends at most one request to the model, and a submitted run
    whose client set-up returns sends exactly one: a failure is reported, not
    retried. *)
Theorem one_request_no_retry (w : World) (inp : Inputs) :
  count is_generation (fst (agent_logic w inp)) <= 1
  /\ (submitted inp -> client_ready w inp ->
      count is_generation (fst (agent_logic w inp)) = 1).
Proof.
  assert (R : submitted inp -> client_ready w inp ->
              count is_generation (fst (agent_logic w inp)) = 1).
  { intros Hs Hc. pose proof (run_by_outcome w inp Hs Hc) as H.
    destruct (snd (attempt w inp)) as [e | u]; rewrite H, !count_app;
      rewrite (attempt_one_request w inp); reflexivity. }
  split; [| exact R].
  destruct (agent_logic_cases w inp)
    as [-> | [-> | [(e & ->) | [(e & ->) | (Hs & Hc)]]]];
    try (cbn; lia).
  rewrite (R Hs Hc). lia.
Qed.

Lemma one_request_no_retry_witness :
  let w := Reference.world (inl (Raised "ServiceUnavailable" "503 overloaded")) in
  count is_generation (fst (agent_logic w Reference.newbury)) = 1.
Proof.
  intros w. apply (one_request_no_retry w Reference.newbury).
  - repeat split; discriminate.
  - split; reflexivity.
Defined.

(** X5: a submitted run whose client set-up returns has one of two outcomes,
    never both and never neither: the [try] body returned and the logic
    panel is on the page with no error report, or it raised and the page has
    exactly one error report and no logic panel. *)
Theorem logic_panel_or_error_report (w : World) (inp : Inputs) :
  submitted inp -> client_ready w inp ->
  (snd (attempt w inp) = inr tt
   /\ existsb is_info (fst (agent_logic w inp)) = true
   /\ count is_oops (fst (agent_logic w inp)) = 0)
  \/ ((exists e, snd (attempt w inp) = inl e)
      /\ existsb is_info (fst (agent_logic w inp)) = false
      /\ count is_oops (fst (agent_logic w inp)) = 1).
Proof.
  intros Hs Hc. pose proof (run_by_outcome w inp Hs Hc) as H.
  pose proof (attempt_info_iff_returns w inp) as I.
  pose proof (attempt_no_oops w inp) as O.
  destruct (snd (attempt w inp)) as [e | []] eqn:E.
  - right. split; [now exists e |]. rewrite H. split.
    + rewrite !existsb_app.
      destruct (existsb is_info (fst (attempt w inp))); [| reflexivity].
      discriminate (proj1 I eq_refl).
    + rewrite !count_app, (count_none _ _ O). reflexivity.
  - left. split; [reflexivity |]. rewrite H. split.
    + rewrite existsb_app, (proj2 I eq_refl). apply orb_true_r.
    + rewrite count_app, (count_none _ _ O). reflexivity.
Qed.

Lemma logic_panel_or_error_report_witness :
  let w := Reference.answers Reference.newbury_text in
  let inp := Reference.newbury in
  (snd (attempt w inp) = inr tt
   /\ existsb is_info (fst (agent_logic w inp)) = true
   /\ count is_oops (fst (agent_logic w inp)) = 0)
  \/ ((exists e, snd (attempt w inp) = inl e)
      /\ existsb is_info (fst (agent_logic w inp)) = false
      /\ count is_oops (fst (agent_logic w inp)) = 1).
Proof.
  intros w inp. apply (logic_panel_or_error_report w inp).
  - repeat split; discriminate.
  - split; reflexivity.
Defined.

(** X6: in a submitted run whose client set-up returns, the status line is
    left in the state of the outcome: "complete" when the [try] body
    returned, "error" when it raised, also when "Analysis Complete" had been
    written before the display failed. *)
Theorem final_status_is_the_outcome (w : World) (inp : Inputs) :
  submitted inp -> client_ready w inp ->
  last_status (fst (agent_logic w inp))
  = Some (match snd (attempt w inp) with
          | inr _ => "complete"
          | inl _ => "error"
          end).
Proof.
  intros Hs Hc. pose proof (run_by_outcome w inp Hs Hc) as H.
  destruct (snd (attempt w inp)) as [e | u] eqn:E; rewrite H.
  - now rewrite !last_status_app.
  - destruct (attempt_cases w inp) as [(e & A) | (data & _ & A)];
      rewrite A in E |- *; [discriminate |].
    cbn [fst]. rewrite !last_status_app, display_no_status. reflexivity.
Qed.

Lemma final_status_witness :
  last_status (fst (agent_logic (Reference.answers Reference.no_logic_text)
                      Reference.newbury))
  = Some "error"
  /\ last_status (fst (agent_logic (Reference.answers Reference.newbury_text)
                         Reference.newbury))
     = Some "complete".
Proof.
  split.
  - apply (final_status_is_the_outcome (Reference.answers Reference.no_logic_text)
             Reference.newbury).
    + repeat split; discriminate.
    + split; reflexivity.
  - apply (final_status_is_the_outcome (Reference.answers Reference.newbury_text)
             Reference.newbury).
    + repeat split; discriminate.
    + split; reflexivity.
Defined.

(** ** More on the display *)

Section DisplayFacts.
Variable w : World.

(** A display that returns was given an object, found every required key,
    and had both cards accepted. *)
Lemma display_returns_dict (inp : Inputs) (data : pyval) :
  snd (display w inp data) = inr tt ->
  exists d,
    data = PDict d
    /\ w_metric_check w (field d "selection") (field d "selection_odds") = None
    /\ w_metric_check w (field d "danger") (field d "danger_odds") = None.
Proof.
  destruct data; try discriminate.
  run_display; try discriminate.
  all: intros _; eexists; split; [reflexivity |]; unfold field;
    repeat match goal with H : lookup _ _ = _ |- _ => rewrite H; clear H end;
    split; assumption.
Qed.

(** What makes the display fail on an object: a required key that is not
    there, a card that [st.metric] refuses, or a text that cannot be
    encoded. *)
Lemma display_failure (inp : Inputs) (d : list (string * pyval)) (e : exn) :
  snd (display w inp (PDict d)) = inl e ->
  (exists k, In k required_keys /\ lookup k d = None /\ e = KeyError k)
  \/ (exists a b,
        w_metric_check w a b = Some e
        /\ ((lookup "selection" d = Some a /\ lookup "selection_odds" d = Some b)
            \/ (lookup "danger" d = Some a /\ lookup "danger_odds" d = Some b)))
  \/ (exists t,
        has_surrogate t = true
        /\ e = w_encode_error w t
        /\ ((exists v, lookup "jockey_alert" d = Some v
                       /\ t = "🚨 **JOCKEY ALERT:** " ++ str w v)
            \/ (exists c, lookup "conditions" d = Some c
                          /\ t = "📍 " ++ meeting inp ++ " • " ++ str w c)
            \/ (exists l, lookup "logic" d = Some l /\ t = str w l))).
Proof.
  run_display; try discriminate.
  all: intros [= <-].
  all: first
    [ left; refine (ex_intro _ _ (conj _ (conj _ eq_refl)));
      [cbn; tauto | assumption]
    | right; left; do 2 eexists; split; [eassumption |];
      first [ left; split; reflexivity | right; split; reflexivity ]
    | right; right; eexists; split; [eassumption |]; split; [reflexivity |];
      first [ left; eexists; split; reflexivity
            | right; left; eexists; split; reflexivity
            | right; right; eexists; split; reflexivity ] ].
Qed.

(** The display with the first key it misses, when the elements before that
    key are accepted. *)
Lemma display_first_missing (inp : Inputs) (d : list (string * pyval)) (k : string) :
  first_missing d = Some k ->
  snd (alert_banner w (PDict d)) = inr tt ->
  (forall c, lookup "conditions" d = Some c ->
             has_surrogate (caption_text w inp c) = false) ->
  (forall c s so,
     lookup "conditions" d = Some c ->
     lookup "selection" d = Some s -> lookup "selection_odds" d = Some so ->
     w_metric_check w s so = None) ->
  (forall c s so g go,
     lookup "conditions" d = Some c ->
     lookup "selection" d = Some s -> lookup "selection_odds" d = Some so ->
     lookup "danger" d = Some g -> lookup "danger_odds" d = Some go ->
     w_metric_check w g go = None) ->
  snd (display w inp (PDict d)) = inl (KeyError k).
Proof.
  unfold first_missing. cbn [required_keys find has_key].
  intros Hf Hb Hcap Hsel Hdg.
  unfold display. destruct (alert_banner w (PDict d)) as [t r].
  cbn [snd] in Hb. subst r. unfold metric, element.
  destruct (lookup "conditions" d) eqn:K1; cbn [negb] in Hf;
    [| injection Hf as <-; repeat run_step; reflexivity].
  pose proof (Hcap _ eq_refl) as S1.
  destruct (lookup "selection" d) eqn:K2; cbn [negb] in Hf;
    [| injection Hf as <-; repeat run_step; reflexivity].
  destruct (lookup "selection_odds" d) eqn:K3; cbn [negb] in Hf;
    [| injection Hf as <-; repeat run_step; reflexivity].
  pose proof (Hsel _ _ _ eq_refl eq_refl eq_refl) as M1.
  destruct (lookup "danger" d) eqn:K4; cbn [negb] in Hf;
    [| injection Hf as <-; repeat run_step; reflexivity].
  destruct (lookup "danger_odds" d) eqn:K5; cbn [negb] in Hf;
    [| injection Hf as <-; repeat run_step; reflexivity].
  pose proof (Hdg _ _ _ _ _ eq_refl eq_refl eq_refl eq_refl eq_refl) as M2.
  destruct (lookup "logic" d) eqn:K6; cbn [negb] in Hf;
    [discriminate | injection Hf as <-; repeat run_step; reflexivity].
Qed.

(** Whatever the display wrote is an initial segment of the full display. *)
Lemma display_initial_segment (inp : Inputs) (d : list (string * pyval)) :
  exists rest,
    full_display w inp d = (fst (display w inp (PDict d)) ++ rest)%list
    /\ (rest = [] <-> snd (display w inp (PDict d)) = inr tt).
Proof.
  unfold full_display, result_events, field.
  run_display.
  all: cbn [fst snd app]; eexists; split; [reflexivity |];
    split; (reflexivity || discriminate).
Qed.

End DisplayFacts.

(** X8: the logic panel is on the page of a submitted run only if the
    response text decoded to an object that has every required key and whose
    two cards [st.metric] accepted. *)
Theorem logic_panel_needs_complete_response (w : World) (inp : Inputs) :
  submitted inp -> client_ready w inp ->
  existsb is_info (fst (agent_logic w inp)) = true ->
  exists d,
    decoded w inp (PDict d)
    /\ (forall k, In k required_keys -> has_key (PDict d) k = true)
    /\ w_metric_check w (field d "selection") (field d "selection_odds") = None
    /\ w_metric_check w (field d "danger") (field d "danger_odds") = None.
Proof.
  intros Hs Hc Hi.
  pose proof (run_by_outcome w inp Hs Hc) as H.
  pose proof (attempt_info_iff_returns w inp) as I.
  destruct (snd (attempt w inp)) as [e | []] eqn:E.
  - rewrite H, !existsb_app in Hi.
    destruct (existsb is_info (fst (attempt w inp))).
    + discriminate (proj1 I eq_refl).
    + discriminate Hi.
  - destruct (attempt_cases w inp) as [(e & A) | (data & Hd & A)];
      rewrite A in E; [discriminate |].
    cbn [snd] in E.
    destruct (display_returns_dict w inp data E) as (d & -> & M1 & M2).
    exists d. repeat split; trivial.
    apply (display_returns_keys w inp (PDict d) E).
Qed.

Lemma logic_panel_needs_complete_response_witness :
  let w := Reference.answers Reference.newbury_text in
  exists d,
    decoded w Reference.newbury (PDict d)
    /\ (forall k, In k required_keys -> has_key (PDict d) k = true)
    /\ w_metric_check w (field d "selection") (field d "selection_odds") = None
    /\ w_metric_check w (field d "danger") (field d "danger_odds") = None.
Proof.
  intros w. apply (logic_panel_needs_complete_response w Reference.newbury).
  - repeat split; discriminate.
  - split; reflexivity.
  - vm_compute. reflexivity.
Defined.

(** X9: when the decoded object lacks required keys, the error report names
    the first one in the order the display reads them (conditions,
    selection, selection_odds, danger, danger_odds, logic), provided the
    elements before it are accepted (the banner step returns, the caption
    can be encoded, [st.metric] takes the cards that come before the key):
    the message is that key between quotes.  What comes after the key does
    not matter. *)
Theorem error_names_first_missing_key (w : World) (inp : Inputs)
  (d : list (string * pyval)) (k : string) :
  submitted inp -> client_ready w inp -> decoded w inp (PDict d) ->
  first_missing d = Some k ->
  snd (alert_banner w (PDict d)) = inr tt ->
  (forall c, lookup "conditions" d = Some c ->
             has_surrogate ("📍 " ++ meeting inp ++ " • " ++ str w c) = false) ->
  (forall c s so,
     lookup "conditions" d = Some c ->
     lookup "selection" d = Some s -> lookup "selection_odds" d = Some so ->
     w_metric_check w s so = None) ->
  (forall c s so g go,
     lookup "conditions" d = Some c ->
     lookup "selection" d = Some s -> lookup "selection_odds" d = Some so ->
     lookup "danger" d = Some g -> lookup "danger_odds" d = Some go ->
     w_metric_check w g go = None) ->
  snd (display w inp (PDict d)) = inl (KeyError k)
  /\ agent_logic w inp
     = ((setup_events inp
           ++ [ generate_content (model_args inp) (user_prompt inp);
                status_update "Analysis Complete" "complete" (Some false) ]
           ++ fst (display w inp (PDict d))
           ++ [ status_update "Error" "error" None;
                st_error ("Oops: '" ++ k ++ "'") ])%list,
        inr tt).
Proof.
  intros Hs Hc Hd Hf Hb Hcap Hsel Hdg.
  pose proof (display_first_missing w inp d k Hf Hb Hcap Hsel Hdg) as E.
  split; [exact E |].
  rewrite (run_decoded w inp _ Hs Hc Hd).
  now rewrite (try_handler_trace _ _ E).
Qed.

Lemma error_names_first_missing_key_witness :
  let inp := Reference.newbury in
  (let w := Reference.answers Cases.no_danger_text in
   snd (display w inp (PDict Cases.no_danger_data)) = inl (KeyError "danger")
   /\ agent_logic w inp
      = ((setup_events inp
            ++ [ generate_content (model_args inp) (user_prompt inp);
                 status_update "Analysis Complete" "complete" (Some false);
                 st_caption "📍 Newbury • Soft, 2m4f";
                 st_columns 2;
                 st_metric "🏆 THE SELECTION" (PStr "Storm King") (PStr "4/1") None;
                 status_update "Error" "error" None;
                 st_error "Oops: 'danger'" ])%list,
         inr tt))
  /\ (let w := Reference.answers Cases.no_conditions_text in
      snd (display w inp (PDict Cases.no_conditions_data)) = inl (KeyError "conditions")
      /\ agent_logic w inp
         = ((setup_events inp
               ++ [ generate_content (model_args inp) (user_prompt inp);
                    status_update "Analysis Complete" "complete" (Some false);
                    status_update "Error" "error" None;
                    st_error "Oops: 'conditions'" ])%list,
            inr tt)).
Proof.
  intros inp. split; intros w.
  - apply (error_names_first_missing_key w inp Cases.no_danger_data "danger").
    + repeat split; discriminate.
    + split; reflexivity.
    + eexists. split; [eexists; split; reflexivity |]. vm_compute. reflexivity.
    + reflexivity.
    + reflexivity.
    + intros c [= <-]. reflexivity.
    + intros c s so _ [= <-] [= <-]. reflexivity.
    + intros c s so g go _ _ _ Hg. discriminate Hg.
  - apply (error_names_first_missing_key w inp Cases.no_conditions_data "conditions").
    + repeat split; discriminate.
    + split; reflexivity.
    + eexists. split; [eexists; split; reflexivity |]. vm_compute. reflexivity.
    + reflexivity.
    + reflexivity.
    + intros c Hc. discriminate Hc.
    + intros c s so Hc. discriminate Hc.
    + intros c s so g go Hc. discriminate Hc.
Defined.

(** X10: on a decoded object the display fails for three reasons only: a
    required key that is not there, which raises [KeyError] with that key; a
    card that [st.metric] refuses, which raises what [st.metric] raised; a
    text with a surrogate (the alert, the caption or the logic), for which
    the element raises its encoding error.  An absent [jockey_alert] never
    makes it fail. *)
Theorem display_fails_for_three_reasons (w : World) (inp : Inputs)
  (d : list (string * pyval)) (e : exn) :
  snd (display w inp (PDict d)) = inl e ->
  (exists k, In k required_keys /\ lookup k d = None /\ e = KeyError k)
  \/ (exists a b,
        w_metric_check w a b = Some e
        /\ ((lookup "selection" d = Some a /\ lookup "selection_odds" d = Some b)
            \/ (lookup "danger" d = Some a /\ lookup "danger_odds" d = Some b)))
  \/ (exists t,
        has_surrogate t = true
        /\ e = w_encode_error w t
        /\ ((exists v, lookup "jockey_alert" d = Some v
                       /\ t = "🚨 **JOCKEY ALERT:** " ++ str w v)
            \/ (exists c, lookup "conditions" d = Some c
                          /\ t = "📍 " ++ meeting inp ++ " • " ++ str w c)
            \/ (exists l, lookup "logic" d = Some l /\ t = str w l))).
Proof.
  apply display_failure.
Qed.

Lemma display_fails_for_three_reasons_witness :
  let w := Reference.answers Reference.newbury_text in
  let inp := Reference.newbury in
  let d := Cases.surrogate_conditions_data in
  let e := Raised "UnicodeEncodeError" "surrogates not allowed" in
  (exists k, In k required_keys /\ lookup k d = None /\ e = KeyError k)
  \/ (exists a b,
        w_metric_check w a b = Some e
        /\ ((lookup "selection" d = Some a /\ lookup "selection_odds" d = Some b)
            \/ (lookup "danger" d = Some a /\ lookup "danger_odds" d = Some b)))
  \/ (exists t,
        has_surrogate t = true
        /\ e = w_encode_error w t
        /\ ((exists v, lookup "jockey_alert" d = Some v
                       /\ t = "🚨 **JOCKEY ALERT:** " ++ str w v)
            \/ (exists c, lookup "conditions" d = Some c
                          /\ t = "📍 " ++ meeting inp ++ " • " ++ str w c)
            \/ (exists l, lookup "logic" d = Some l /\ t = str w l))).
Proof.
  intros w inp d e.
  apply (display_fails_for_three_reasons w inp d e).
  reflexivity.
Defined.

(** X11: the display writes its elements in one order (banner if any,
    caption, columns, selection card, danger card, rule, heading, logic
    text), and a display that fails has written an initial segment of it:
    nothing is skipped and nothing follows the failure.  The segment is the
    whole exactly when the display returned. *)
Theorem display_is_initial_segment (w : World) (inp : Inputs)
  (d : list (string * pyval)) :
  exists rest,
    full_display w inp d = (fst (display w inp (PDict d)) ++ rest)%list
    /\ (rest = [] <-> snd (display w inp (PDict d)) = inr tt).
Proof.
  apply display_initial_segment.
Qed.

(** X12: the page depends on the decoded object only through the seven keys
    the script reads: two objects that agree on them, whatever other keys
    they have and in whatever order, give the same display. *)
Theorem display_reads_seven_keys (w : World) (inp : Inputs)
  (d1 d2 : list (string * pyval)) :
  (forall k, In k ("jockey_alert" :: required_keys) -> lookup k d1 = lookup k d2) ->
  display w inp (PDict d1) = display w inp (PDict d2).
Proof.
  intros H. unfold display, alert_banner.
  cbn [py_get py_getitem]. unfold dict_getitem.
  rewrite !(H "jockey_alert"), !(H "conditions"), !(H "selection"),
    !(H "selection_odds"), !(H "danger"), !(H "danger_odds"), !(H "logic")
    by (cbn; tauto).
  reflexivity.
Qed.

Lemma display_reads_seven_keys_witness :
  let w := Reference.answers Reference.newbury_text in
  display w Reference.newbury (PDict Cases.shuffled_data)
  = display w Reference.newbury (PDict Reference.newbury_data).
Proof.
  intros w. apply (display_reads_seven_keys w Reference.newbury).
  intros k Hk. cbn in Hk.
  repeat (destruct Hk as [<- | Hk]; [reflexivity |]). contradiction.
Defined.

(** X13: a card that [st.metric] refuses stops the display where it is.
    In a display whose banner step returned and whose caption was written,
    when the selection card is refused the page keeps the banner step, the
    caption and the columns, and the danger card is not tried; when the
    danger card is refused the selection card is there as well.  In both
    cases the display raises what [st.metric] raised. *)
Theorem refused_card_stops_display (w : World) (inp : Inputs)
  (d : list (string * pyval)) (c s so : pyval) (e : exn) :
  snd (alert_banner w (PDict d)) = inr tt ->
  lookup "conditions" d = Some c ->
  has_surrogate ("📍 " ++ meeting inp ++ " • " ++ str w c) = false ->
  lookup "selection" d = Some s ->
  lookup "selection_odds" d = Some so ->
  (w_metric_check w s so = Some e ->
   display w inp (PDict d)
   = ((fst (alert_banner w (PDict d))
         ++ [ st_caption ("📍 " ++ meeting inp ++ " • " ++ str w c);
              st_columns 2 ])%list,
      inl e))
  /\ (forall g go,
        w_metric_check w s so = None ->
        lookup "danger" d = Some g ->
        lookup "danger_odds" d = Some go ->
        w_metric_check w g go = Some e ->
        display w inp (PDict d)
        = ((fst (alert_banner w (PDict d))
              ++ [ st_caption ("📍 " ++ meeting inp ++ " • " ++ str w c);
                   st_columns 2;
                   st_metric "🏆 THE SELECTION" s so None ])%list,
           inl e)).
Proof.
  intros Hb Kc S1 Ks Kso.
  change (has_surrogate (caption_text w inp c) = false) in S1.
  unfold display. destruct (alert_banner w (PDict d)) as [t r].
  cbn [snd] in Hb. subst r. unfold metric, element. split.
  - intros M. repeat run_step. reflexivity.
  - intros g go M Kg Kgo M'. repeat run_step. reflexivity.
Qed.

Lemma refused_card_witness :
  let w := Reference.answers Cases.list_selection_text in
  display w Reference.newbury (PDict Cases.list_selection_data)
  = ([ st_caption "📍 Newbury • Soft, 2m4f"; st_columns 2 ],
     inl (Raised "TypeError" "not an accepted type")).
Proof.
  intros w.
  apply (proj1 (refused_card_stops_display w Reference.newbury
                  Cases.list_selection_data (PStr "Soft, 2m4f")
                  (PList [PStr "Storm King"; PStr "Red Rum"]) (PStr "4/1")
                  (Raised "TypeError" "not an accepted type")
                  eq_refl eq_refl eq_refl eq_refl eq_refl)).
  reflexivity.
Defined.

(** ** More on the jockey alert *)

(** X14: the banner is not reserved to strings.  For every true value other
    than the string "null" (the boolean [true], a number that is not zero, a
    list or an object that is not empty) the script calls [st.error] with
    [str] of the value after the heading ([true] shows as [True], 7 as [7]):
    the banner is written when that text can be encoded, and the call raises
    with nothing written when it holds a surrogate. *)
Theorem truthy_value_raises_banner (w : World) (d : list (string * pyval)) (v : pyval) :
  lookup "jockey_alert" d = Some v ->
  truthy v = true ->
  v <> PStr "null" ->
  (has_surrogate ("🚨 **JOCKEY ALERT:** " ++ str w v) = false ->
   alert_banner w (PDict d) = ([st_error ("🚨 **JOCKEY ALERT:** " ++ str w v)], inr tt))
  /\ (has_surrogate ("🚨 **JOCKEY ALERT:** " ++ str w v) = true ->
      alert_banner w (PDict d)
      = ([], inl (w_encode_error w ("🚨 **JOCKEY ALERT:** " ++ str w v))))
  /\ str w (PBool true) = "True"
  /\ str w (PInt 7) = "7".
Proof.
  intros Hv Ht Hn.
  assert (N : ne_str v "null" = true).
  { destruct v; try reflexivity. apply ne_str_iff. congruence. }
  rewrite alert_banner_dict, Hv, Ht, N. cbn [andb]. unfold alert_text.
  split; [| split; [| split; reflexivity]]; intros ->; reflexivity.
Qed.

Lemma truthy_value_raises_banner_witness :
  let w := Reference.answers Reference.newbury_text in
  alert_banner w (PDict [("jockey_alert", PBool true)])
  = ([st_error "🚨 **JOCKEY ALERT:** True"], inr tt).
Proof.
  intros w.
  apply (truthy_value_raises_banner w [("jockey_alert", PBool true)] (PBool true)).
  - reflexivity.
  - reflexivity.
  - discriminate.
  - reflexivity.
Defined.

(** ** The client set-up and the key *)

(** X15: the two client calls before the [try] are not under the handler.
    When [genai.configure] raises, the script stops there with that
    exception: no status line, no request, no error report.  When
    [GenerativeModel] raises, it stops after opening the status line, again
    without request and without report. *)
Theorem client_setup_is_unguarded (w : World) (inp : Inputs) (e : exn) :
  submitted inp ->
  (w_configure w (api_key inp) = Some e ->
   agent_logic w inp = ([genai_configure (api_key inp)], inl e))
  /\ (w_configure w (api_key inp) = None ->
      w_GenerativeModel w (model_args inp) = Some e ->
      agent_logic w inp
      = ([ genai_configure (api_key inp);
           st_status "🚀 Agent Working..." true;
           genai_GenerativeModel (model_args inp) ], inl e)).
Proof.
  intros (Hb & Hk & Hm). apply str_nonempty_iff in Hm.
  unfold agent_logic, call. rewrite Hb, Hk, Hm. split.
  - intros ->. reflexivity.
  - intros -> ->. reflexivity.
Qed.

Lemma client_setup_is_unguarded_witness :
  let e := Raised "ValueError" "invalid key" in
  agent_logic (Cases.refusing_key e) Reference.newbury
  = ([genai_configure (PStr "secret-key")], inl e)
  /\ agent_logic (Cases.refusing_model e) Reference.newbury
     = ([ genai_configure (PStr "secret-key");
          st_status "🚀 Agent Working..." true;
          genai_GenerativeModel (model_args Reference.newbury) ], inl e).
Proof.
  intros e.
  assert (Hs : submitted Reference.newbury) by (repeat split; discriminate).
  split.
  - apply (proj1 (client_setup_is_unguarded (Cases.refusing_key e)
                    Reference.newbury e Hs)).
    reflexivity.
  - apply (proj2 (client_setup_is_unguarded (Cases.refusing_model e)
                    Reference.newbury e Hs)); reflexivity.
Defined.

(** X16: the script itself uses the key for the guard and for
    [genai.configure] only: it is in neither the model arguments nor the
    prompt, and it is not shown.  So two submitted runs with the same race
    form and different keys, to which the client gives the same reply, write
    the same page and end the same way: they differ in the configure call
    only. *)
Theorem key_reaches_configure_only (w : World) (inp1 inp2 : Inputs) :
  same_form inp1 inp2 ->
  submitted inp1 -> submitted inp2 ->
  client_ready w inp1 -> client_ready w inp2 ->
  model_args inp1 = model_args inp2
  /\ user_prompt inp1 = user_prompt inp2
  /\ (w_generate_content w (api_key inp1) (model_args inp1) (user_prompt inp1)
      = w_generate_content w (api_key inp2) (model_args inp2) (user_prompt inp2) ->
      exists t r,
        agent_logic w inp1 = (genai_configure (api_key inp1) :: t, r)
        /\ agent_logic w inp2 = (genai_configure (api_key inp2) :: t, r)).
Proof.
  intros (Ht & Hm & Hd & Hb) (B1 & K1 & M1) (B2 & K2 & M2) (C1 & G1) (C2 & G2).
  assert (A : model_args inp1 = model_args inp2).
  { unfold model_args, system_prompt. now rewrite Ht, Hm, Hd. }
  assert (U : user_prompt inp1 = user_prompt inp2).
  { unfold user_prompt. now rewrite Ht, Hm, Hd, Hb. }
  split; [exact A | split; [exact U |]].
  intros R.
  assert (T : attempt w inp1 = attempt w inp2).
  { unfold attempt, display, caption_text. now rewrite R, A, U, Hm. }
  apply str_nonempty_iff in M1. apply str_nonempty_iff in M2.
  rewrite (agent_logic_submitted w inp1 B1 K1 M1 C1 G1).
  rewrite (agent_logic_submitted w inp2 B2 K2 M2 C2 G2).
  unfold setup_events. rewrite A, T. cbn [app].
  eexists. eexists. split; reflexivity.
Qed.

Lemma key_reaches_configure_only_witness :
  let w := Reference.answers Reference.newbury_text in
  let inp1 := Reference.newbury in
  let inp2 := Cases.with_secret (PStr "cloud-key") in
  exists t r,
    agent_logic w inp1 = (genai_configure (PStr "secret-key") :: t, r)
    /\ agent_logic w inp2 = (genai_configure (PStr "cloud-key") :: t, r).
Proof.
  intros w inp1 inp2.
  assert (F : same_form inp1 inp2) by (repeat split).
  assert (S1 : submitted inp1) by (repeat split; discriminate).
  assert (S2 : submitted inp2) by (repeat split; discriminate).
  assert (R1 : client_ready w inp1) by (split; reflexivity).
  assert (R2 : client_ready w inp2) by (split; reflexivity).
  apply (proj2 (proj2 (key_reaches_configure_only w inp1 inp2 F S1 S2 R1 R2))).
  reflexivity.
Defined.

(** ** The status line and the warning *)

Section StatusFacts.
Variable w : World.

Lemma display_no_complete (inp : Inputs) (data : pyval) :
  existsb is_complete_update (fst (display w inp data)) = false.
Proof.
  destruct data; try reflexivity. run_display; reflexivity.
Qed.

Lemma display_no_warning (inp : Inputs) (data : pyval) :
  existsb is_warning (fst (display w inp data)) = false.
Proof.
  destruct data; try reflexivity. run_display; reflexivity.
Qed.

Lemma attempt_no_warning (inp : Inputs) :
  existsb is_warning (fst (attempt w inp)) = false.
Proof.
  destruct (attempt_cases w inp) as [(e & ->) | (data & _ & ->)]; [reflexivity |].
  cbn [fst]. rewrite existsb_app, display_no_warning. reflexivity.
Qed.

(** A decoded answer is the one the [try] body works on. *)
Lemma decoded_attempt (inp : Inputs) (data : pyval) :
  decoded w inp data ->
  attempt w inp
  = ((answered_events inp ++ fst (display w inp data))%list, snd (display w inp data)).
Proof.
  intros (txt & (r & Hr & Ht) & Hd). apply (attempt_decoded w inp r txt data Hr Ht Hd).
Qed.

End StatusFacts.

(** X7: "Analysis Complete" is written as soon as the response text decodes,
    before the display is tried: it is on the page of a submitted run exactly
    when the text decoded, also when the display then fails and the status
    ends in error. *)
Theorem complete_means_decoded (w : World) (inp : Inputs) :
  submitted inp -> client_ready w inp ->
  existsb is_complete_update (fst (agent_logic w inp)) = true
  <-> exists data, decoded w inp data.
Proof.
  intros Hs Hc. pose proof (run_by_outcome w inp Hs Hc) as H.
  assert (P : existsb is_complete_update (fst (agent_logic w inp))
              = existsb is_complete_update (fst (attempt w inp))).
  { destruct (snd (attempt w inp)) as [e | u]; rewrite H, !existsb_app;
      cbn [setup_events error_report existsb is_complete_update orb];
      now rewrite ?orb_false_r. }
  rewrite P. split.
  - intros C. destruct (attempt_cases w inp) as [(e & A) | (data & Hd & _)].
    + rewrite A in C. discriminate C.
    + now exists data.
  - intros (data & Hd). rewrite (decoded_attempt w inp data Hd). reflexivity.
Qed.

Lemma complete_means_decoded_witness :
  let w := Reference.answers Reference.no_logic_text in
  existsb is_complete_update (fst (agent_logic w Reference.newbury)) = true
  /\ last_status (fst (agent_logic w Reference.newbury)) = Some "error".
Proof.
  intros w. split.
  - apply (complete_means_decoded w Reference.newbury).
    + repeat split; discriminate.
    + split; reflexivity.
    + exists (PDict Reference.no_logic_data).
      eexists. split; [eexists; split; reflexivity |]. vm_compute. reflexivity.
  - vm_compute. reflexivity.
Defined.

(** A run that has a key never shows the warning. *)
Lemma key_no_warning (w : World) (inp : Inputs) :
  truthy (api_key inp) = true ->
  existsb is_warning (fst (agent_logic w inp)) = false.
Proof.
  intros Hk.
  destruct (start_btn inp) eqn:Hb;
    [| unfold agent_logic; now rewrite Hb].
  destruct (str_nonempty (meeting inp)) eqn:Hm;
    [| unfold agent_logic; now rewrite Hb, Hk, Hm].
  destruct (w_configure w (api_key inp)) as [e |] eqn:Hc;
    [unfold agent_logic, call; now rewrite Hb, Hk, Hm, Hc |].
  destruct (w_GenerativeModel w (model_args inp)) as [e |] eqn:Hg;
    [unfold agent_logic, call; now rewrite Hb, Hk, Hm, Hc, Hg |].
  assert (Hs : submitted inp).
  { apply str_nonempty_iff in Hm. now repeat split. }
  assert (Hr : client_ready w inp) by now split.
  pose proof (run_by_outcome w inp Hs Hr) as H.
  destruct (snd (attempt w inp)) as [e | u]; rewrite H, !existsb_app;
    now rewrite (attempt_no_warning w inp).
Qed.

(** X3: the warning about the key is on the page exactly when the button
    was pressed and the key is a false value; no run that has a key shows
    it, whatever else goes wrong. *)
Theorem warning_exactly_without_key (w : World) (inp : Inputs) :
  existsb is_warning (fst (agent_logic w inp)) = true
  <-> start_btn inp = true /\ truthy (api_key inp) = false.
Proof.
  split.
  - intros Hw.
    destruct (truthy (api_key inp)) eqn:Hk.
    { rewrite (key_no_warning w inp Hk) in Hw. discriminate Hw. }
    destruct (start_btn inp) eqn:Hb; [now split |].
    unfold agent_logic in Hw. rewrite Hb in Hw. discriminate Hw.
  - intros (Hb & Hk). unfold agent_logic. now rewrite Hb, Hk.
Qed.

Lemma warning_exactly_without_key_witness :
  existsb is_warning
    (fst (agent_logic (Reference.answers Reference.newbury_text) Reference.no_key))
  = true.
Proof.
  apply (proj2 (warning_exactly_without_key
                  (Reference.answers Reference.newbury_text) Reference.no_key)).
  split; reflexivity.
Defined.
